(** * rasterio-plotting: the RGB pipeline of [rasterio_plotting.ipynb]

    A shallow embedding of the functions of the notebook: the two pipeline
    functions [create_rgb_stack] and [write_rgb_image], the loader
    [get_bands], the plotting functions [plot_rgb_bands] and
    [plot_rgb_image], and the cells that store and write the stack,
    together with models of the numpy / scikit-image / rasterio / os /
    requests calls they make.

    Conventions.
    - A band is an integer array (raw sensor digital numbers): a dtype, a
      shape and the samples in row-major order.
    - numpy's float64 is modelled by exact rationals extended with the two
      infinities and NaN ([float64]); rounding is not modelled, NaN and
      division by zero are. The general properties are limited to what
      rounding cannot change: orders, bounds, the images of the cut points.
    - What the libraries decide differently from one release or platform to
      another is a parameter ([Environment], [open_error]), not a choice of
      this development.
    - Python exceptions are values of [exn]; a call either returns or raises
      ([result]).
    - The one Python object that is mutated, the rasterio profile, lives in a
      heap and is named by its location, so aliasing is visible.
    - [get_bands] runs on a [machine]: the directories and files on disk, the
      bodies the server sends, the profile objects, what was printed and what
      was requested; it either returns or fails ([outcome]).
    - The plotting functions are the list of the matplotlib and
      [rasterio.plot] calls they make, with their arguments. *)

From Stdlib Require Import ZArith QArith Qminmax Qround Lqa Lia Ascii String DecimalString.
From stdpp Require Import base option list gmap strings sorting.

Local Open Scope Z_scope.

(** ** Python exceptions and results *)

Inductive exn :=
| KeyError (key : string)
| UnboundLocalError (name : string)
| ValueError (msg : string)
| IndexError (msg : string)
| AttributeError (msg : string)
| TypeError (msg : string)
| OSError (msg : string).

Inductive result (A : Type) :=
| Return (a : A)
| Raise (e : exn).
Arguments Return {A} a.
Arguments Raise {A} e.

#[global] Instance result_ret : MRet result := λ A a, Return a.
#[global] Instance result_bind : MBind result := λ A B f m,
  match m with
  | Return a => f a
  | Raise e => Raise e
  end.

(** [try: body except <caught>: handler]. *)
Definition try_except {A} (body : result A) (caught : exn → bool)
    (handler : result A) : result A :=
  match body with
  | Return a => Return a
  | Raise e => if caught e then handler else Raise e
  end.

Definition is_KeyError (e : exn) : bool :=
  match e with
  | KeyError _ => true
  | _ => false
  end.

(** [d[k]] on a Python dict. *)
Definition getitem {V} (d : gmap string V) (k : string) : result V :=
  match d !! k with
  | Some v => Return v
  | None => Raise (KeyError k)
  end.

(** ** float64, idealised *)

Inductive float64 :=
| Num (q : Q)
| Inf (negative : bool)
| NaN.

Definition Qneg_bool (q : Q) : bool := negb (Qle_bool 0 q).
Definition Qzero_bool (q : Q) : bool := Qeq_bool q 0.

Definition fadd (x y : float64) : float64 :=
  match x, y with
  | NaN, _ | _, NaN => NaN
  | Num a, Num b => Num (a + b)
  | Inf s, Num _ | Num _, Inf s => Inf s
  | Inf s, Inf t => if Bool.eqb s t then Inf s else NaN
  end.

Definition fneg (x : float64) : float64 :=
  match x with
  | Num a => Num (- a)
  | Inf s => Inf (negb s)
  | NaN => NaN
  end.

Definition fsub (x y : float64) : float64 :=
  match x, y with
  | Num a, Num b => Num (a - b)
  | _, _ => fadd x (fneg y)
  end.

Definition fmul (x y : float64) : float64 :=
  match x, y with
  | NaN, _ | _, NaN => NaN
  | Num a, Num b => Num (a * b)
  | Inf s, Num q | Num q, Inf s =>
      if Qzero_bool q then NaN else Inf (xorb s (Qneg_bool q))
  | Inf s, Inf t => Inf (xorb s t)
  end.

(** True division as numpy performs it on floats: a zero divisor raises
    nothing, it yields NaN (for 0/0) or an infinity, with a warning only. *)
Definition fdiv (x y : float64) : float64 :=
  match x, y with
  | NaN, _ | _, NaN => NaN
  | Num a, Num b =>
      if Qzero_bool b
      then (if Qzero_bool a then NaN else Inf (Qneg_bool a))
      else Num (a / b)
  | Num _, Inf _ => Num 0
  | Inf s, Num b => Inf (xorb s (Qneg_bool b))
  | Inf _, Inf _ => NaN
  end.

(** [x <= y] on floats; false as soon as one side is NaN. *)
Definition float_leb (x y : float64) : bool :=
  match x, y with
  | NaN, _ | _, NaN => false
  | Num a, Num b => Qle_bool a b
  | Inf s, Inf t => s || negb t
  | Inf s, Num _ => s
  | Num _, Inf t => negb t
  end.

Definition float_le (x y : float64) : Prop := float_leb x y = true.

#[global] Instance float_le_dec x y : Decision (float_le x y).
Proof. unfold float_le. apply bool_eq_dec. Defined.

(** [np.maximum] and [np.minimum]: NaN propagates. *)
Definition np_maximum (x y : float64) : float64 :=
  match x, y with
  | NaN, _ | _, NaN => NaN
  | _, _ => if float_leb x y then y else x
  end.

Definition np_minimum (x y : float64) : float64 :=
  match x, y with
  | NaN, _ | _, NaN => NaN
  | _, _ => if float_leb x y then x else y
  end.

(** [np.clip(a, a_min, a_max)] is [minimum(maximum(a, a_min), a_max)]. *)
Definition np_clip (a a_min a_max : float64) : float64 :=
  np_minimum (np_maximum a a_min) a_max.

(** Truncation toward zero, the float-to-integer conversion of C. *)
Definition Qtrunc (q : Q) : Z := Z.quot (Qnum q) (Z.pos (Qden q)).

(** ** Integer dtypes and arrays *)

Inductive np_dtype := uint8 | int8 | uint16 | int16 | uint32 | int32 | int64.

#[global] Instance np_dtype_eq_dec : EqDecision np_dtype.
Proof. solve_decision. Defined.

Definition dtype_bits (dt : np_dtype) : Z :=
  match dt with
  | uint8 | int8 => 8
  | uint16 | int16 => 16
  | uint32 | int32 => 32
  | int64 => 64
  end.

Definition dtype_signed (dt : np_dtype) : bool :=
  match dt with
  | int8 | int16 | int32 | int64 => true
  | uint8 | uint16 | uint32 => false
  end.

(** Integer conversion to a dtype wraps around (two's complement). *)
Definition cast_int (dt : np_dtype) (z : Z) : Z :=
  let m := 2 ^ dtype_bits dt in
  if dtype_signed dt then (z + m / 2) mod m - m / 2 else z mod m.

(** The value range of a dtype ([skimage.util.dtype.dtype_range]). *)
Definition dtype_range (dt : np_dtype) : Z * Z :=
  let m := 2 ^ dtype_bits dt in
  if dtype_signed dt then (- (m / 2), m / 2 - 1) else (0, m - 1).

Record ndarray := {
  dtype : np_dtype;
  shape : list nat;
  data : list Z
}.

(** A float64 array. *)
Record farray := {
  fshape : list nat;
  fdata : list float64
}.

(** [a.astype(dt)] between integer dtypes. *)
Definition astype (dt : np_dtype) (a : ndarray) : ndarray :=
  {| dtype := dt; shape := shape a; data := map (cast_int dt) (data a) |}.

(** [a == v] for an integer array and a scalar: a boolean array. *)
Definition np_equal_scalar (a : ndarray) (v : Z) : list nat * list bool :=
  (shape a, map (λ x, Z.eqb x v) (data a)).

(** Decimal text of a shape, as Python prints a tuple. *)
Definition repr_nat (n : nat) : string :=
  NilEmpty.string_of_uint (Nat.to_uint n).

Fixpoint repr_items (l : list nat) : string :=
  match l with
  | [] => ""
  | [n] => repr_nat n
  | n :: rest => repr_nat n +:+ ", " +:+ repr_items rest
  end.

Definition repr_shape (s : list nat) : string :=
  match s with
  | [n] => "(" +:+ repr_nat n +:+ ",)"
  | _ => "(" +:+ repr_items s +:+ ")"
  end.

(** Either kind of array, where numpy accepts both. *)
Inductive array :=
| IntArr (a : ndarray)
| FloatArr (f : farray).

Definition array_values (a : array) : list float64 :=
  match a with
  | IntArr a => map (λ x, Num (inject_Z x)) (data a)
  | FloatArr f => fdata f
  end.

(** ** numpy.ma: masked arrays *)

Record masked_array := {
  ma_data : ndarray;
  ma_mask : list bool
}.

(** The text of the error [masked_where] raises. *)
Definition inconsistent_shape (cshape ashape : list nat) : string :=
  "Inconsistent shape between the condition and the input (got "
  +:+ repr_shape cshape +:+ " and " +:+ repr_shape ashape +:+ ")".

(** [np.ma.masked_where(condition, a)]: the condition must have the shape of
    [a] (a 0-d condition applies to every element); otherwise IndexError,
    whose message names both shapes. *)
Definition masked_where (condition : list nat * list bool) (a : ndarray)
  : result masked_array :=
  let '(cshape, cond) := condition in
  match cshape with
  | [] =>
      Return {| ma_data := a;
                ma_mask := replicate (length (data a)) (default false (head cond)) |}
  | _ =>
      if decide (cshape = shape a)
      then Return {| ma_data := a; ma_mask := cond |}
      else Raise (IndexError (inconsistent_shape cshape (shape a)))
  end.

(** [np.ma.filled(m.astype('float'), fill_value)]: the samples as floats,
    the masked ones replaced by the fill value. *)
Definition ma_filled_float (m : masked_array) (fill_value : float64) : farray :=
  {| fshape := shape (ma_data m);
     fdata := zip_with (λ (b : bool) x, if b then fill_value else Num (inject_Z x))
                (ma_mask m) (data (ma_data m)) |}.

(** ** numpy.nanpercentile, linear interpolation *)

#[global] Instance float64_eq_nan_dec (x : float64) : Decision (x ≠ NaN).
Proof. destruct x; [left; discriminate | left; discriminate | right; auto]. Defined.

Definition remove_nan (l : list float64) : list float64 :=
  filter (λ x, x ≠ NaN) l.

Definition quantile_is_valid (q : Q) : bool :=
  Qle_bool 0 q && Qle_bool q 1.

(** The value of sorted data at quantile [q]: with [Nx] samples the virtual
    index is [q * (Nx - 1)]; the samples below and above it are weighted by
    the distance to it. *)
Definition quantile_1d (arr : list float64) (q : Q) : float64 :=
  let ap := merge_sort float_le arr in
  let Nx := Z.of_nat (length ap) in
  let indices := (q * (inject_Z Nx - 1))%Q in
  let indices_below := Qfloor indices in
  let indices_above := Z.min (indices_below + 1) (Nx - 1) in
  let weights_above := (indices - inject_Z indices_below)%Q in
  let weights_below := (1 - weights_above)%Q in
  let take (i : Z) := nth (Z.to_nat i) ap NaN in
  fadd (fmul (take indices_below) (Num weights_below))
       (fmul (take indices_above) (Num weights_above)).

(** [vmin, vmax = np.nanpercentile(a, (q1, q2))] over the flattened array.
    The percentiles are checked first. For an array without elements numpy
    returns one NaN, not a pair, and the assignment to two names raises
    TypeError. Otherwise the NaN samples are dropped, and an array left
    without samples yields NaN for both (with a warning only). *)
Definition nanpercentile (a : array) (q : Q * Q) : result (float64 * float64) :=
  let q1 := (fst q / 100)%Q in
  let q2 := (snd q / 100)%Q in
  if quantile_is_valid q1 && quantile_is_valid q2 then
    match array_values a with
    | [] => Raise (TypeError "cannot unpack non-iterable numpy.float64 object")
    | _ =>
        match remove_nan (array_values a) with
        | [] => Return (NaN, NaN)
        | arr1d => Return (quantile_1d arr1d q1, quantile_1d arr1d q2)
        end
    end
  else Raise (ValueError "Percentiles must be in the range [0, 100]").

(** ** numpy.stack *)

Definition all_same_shape (arrays : list ndarray) : bool :=
  match arrays with
  | [] => true
  | a :: rest => forallb (λ b, bool_decide (shape b = shape a)) rest
  end.

(** [np.stack(arrays)] along a new first axis. The arrays stacked by the
    pipeline all have one dtype, which is the result's. *)
Definition np_stack (arrays : list ndarray) : result ndarray :=
  match arrays with
  | [] => Raise (ValueError "need at least one array to stack")
  | a :: _ =>
      if all_same_shape arrays
      then Return {| dtype := dtype a;
                     shape := length arrays :: shape a;
                     data := concat (map data arrays) |}
      else Raise (ValueError "all input arrays must have the same shape")
  end.

(** ** The pipeline *)

(** What the pipeline takes from its environment and this development does
    not define. *)
Class Environment := {
  (** [skimage.exposure.equalize_adapthist(image, clip_limit=...)]: contrast
      limited adaptive histogram equalization, a float image. The algorithm
      belongs to scikit-image; the pipeline is stated over any function in
      its place. *)
  equalize_adapthist : ndarray → Q → farray;
  (** What converting a float that is not finite (NaN, an infinity) to an
      integer dtype yields. numpy leaves it to the C conversion of the
      platform. *)
  invalid_cast : np_dtype → Z;
  (** What [skimage.exposure.rescale_intensity] makes of a sample when the
      two ends of the input range are one number: its arguments are the
      dtype of the image, the output dtype and that number. The releases of
      scikit-image differ here: the oldest divide 0 by 0 and convert the NaN
      to the dtype of the image, later ones skip the division and return the
      number, scaled or clipped to the output range. *)
  rescale_equal_range : np_dtype → np_dtype → Q → Z
}.

Section Pipeline.

Context {env : Environment}.

(** Float to integer dtype: truncation toward zero, then wrap-around. *)
Definition float_to_int (dt : np_dtype) (x : float64) : Z :=
  match x with
  | Num q => cast_int dt (Qtrunc q)
  | _ => cast_int dt (invalid_cast dt)
  end.

(** [f.astype(dt)] for a float array. *)
Definition fastype (dt : np_dtype) (f : farray) : ndarray :=
  {| dtype := dt; shape := fshape f; data := map (float_to_int dt) (fdata f) |}.

(** [f * c] for a float array and a scalar. *)
Definition fscale (f : farray) (c : Q) : farray :=
  {| fshape := fshape f; fdata := map (λ x, fmul x (Num c)) (fdata f) |}.

(** [skimage.exposure.intensity_range] for a dtype name. *)
Definition intensity_range_dtype (dt : np_dtype) (clip_negative : bool) : Z * Z :=
  let '(i_min, i_max) := dtype_range dt in
  (if clip_negative then 0 else i_min, i_max).

(** The two ends of an input range are one number. *)
Definition equal_range (in_range : float64 * float64) : option Q :=
  match in_range with
  | (Num a, Num b) => if Qeq_bool a b then Some (Qred a) else None
  | _ => None
  end.

(** [skimage.exposure.rescale_intensity(image, in_range=(imin, imax),
    out_range=<dtype name>)]: clip to the input range, map it linearly onto
    the output range, convert to an integer dtype (the dtype of the image
    here; the [astype(np.uint8)] that follows in the notebook makes the
    samples uint8 whichever dtype the release converts to). When [imin] and
    [imax] are one number every sample is clipped to it, and what it becomes
    is the release's choice, [rescale_equal_range]. *)
Definition rescale_intensity (image : ndarray) (in_range : float64 * float64)
    (out_range : np_dtype) : ndarray :=
  let dt := dtype image in
  let '(imin, imax) := in_range in
  let '(omin, omax) :=
    intensity_range_dtype out_range (float_leb (Num 0) imin) in
  let clipped := map (λ x, np_clip (Num (inject_Z x)) imin imax) (data image) in
  let scaled := map (λ x, fdiv (fsub x imin) (fsub imax imin)) clipped in
  {| dtype := dt;
     shape := shape image;
     data :=
       match equal_range in_range with
       | Some v => map (λ _, rescale_equal_range dt out_range v) (data image)
       | None =>
           map (λ x, float_to_int dt
                       (fadd (fmul x (Num (inject_Z (omax - omin))))
                             (Num (inject_Z omin))))
               scaled
       end |}.

(** The [try ... except KeyError] block of [create_rgb_stack]: the band
    with fill pixels ([qa == 1]) replaced by NaN, or the band itself when
    the lookup of ['qa'] raises KeyError. No other exception is caught. *)
Definition masked_band_of (bands : gmap string ndarray) (band : ndarray)
  : result array :=
  try_except
    (qa ← getitem bands "qa";
     let fill_mask := np_equal_scalar qa 1 in
     masked_band ← masked_where fill_mask band;
     Return (FloatArr (ma_filled_float masked_band NaN)))
    is_KeyError
    (Return (IntArr band)).

(** The local variables of [create_rgb_stack] that the loop assigns. *)
Record locals := {
  modified_band : option ndarray;
  modified_bands : list ndarray
}.

(** The [if method == 'rescaling' ... elif method == 'clahe' ...] statement
    of the loop body, as its effect on the local [modified_band]: there is
    no [else], so any other method leaves the variable as it was. *)
Definition modify_band (bands : gmap string ndarray) (method : string)
    (percentile clip_limit : Q) (current : option ndarray) (band : ndarray)
  : result (option ndarray) :=
  if String.eqb method "rescaling" then
    masked_band ← masked_band_of bands band;
    '(vmin, vmax) ← nanpercentile masked_band (percentile, (100 - percentile)%Q);
    let modified := rescale_intensity band (vmin, vmax) uint8 in
    Return (Some (astype uint8 modified))
  else if String.eqb method "clahe" then
    let modified := equalize_adapthist band clip_limit in
    Return (Some (fastype uint8 (fscale modified 255)))
  else Return current.

(** One iteration of the [for band in ...] loop; reading a local that was
    never assigned raises UnboundLocalError. *)
Definition loop_body (bands : gmap string ndarray) (method : string)
    (percentile clip_limit : Q) (st : locals) (band : ndarray) : result locals :=
  current ← modify_band bands method percentile clip_limit (modified_band st) band;
  match current with
  | None => Raise (UnboundLocalError "modified_band")
  | Some b => Return {| modified_band := Some b;
                        modified_bands := modified_bands st ++ [b] |}
  end.

Fixpoint for_loop (bands : gmap string ndarray) (method : string)
    (percentile clip_limit : Q) (st : locals) (items : list ndarray)
  : result locals :=
  match items with
  | [] => Return st
  | band :: rest =>
      st ← loop_body bands method percentile clip_limit st band;
      for_loop bands method percentile clip_limit st rest
  end.

(** [create_rgb_stack(bands, method, percentile, clip_limit)]. [bands] is
    the dict as the function reads it: its array entries ('red', 'green',
    'blue' and, optionally, 'qa'); no other key is looked up. *)
Definition create_rgb_stack (bands : gmap string ndarray) (method : string)
    (percentile clip_limit : Q) : result ndarray :=
  red ← getitem bands "red";
  green ← getitem bands "green";
  blue ← getitem bands "blue";
  st ← for_loop bands method percentile clip_limit
         {| modified_band := None; modified_bands := [] |}
         [red; green; blue];
  np_stack (modified_bands st).

End Pipeline.

(** ** Writing the image *)

(** A value of the profile mapping. *)
Inductive meta :=
| MStr (s : string)
| MInt (z : Z)
| MOpaque (n : nat).

Definition loc := positive.
#[global] Instance loc_eq_dec : EqDecision loc := _.
#[global] Instance loc_countable : Countable loc := _.

(** A value of the notebook's [bands] dict: an array, or a reference to the
    rasterio profile object. *)
Inductive pyobj :=
| PArray (a : ndarray)
| PProfile (l : loc).

(** A raster file opened for writing: the creation keywords and the bands
    written so far, by 1-based index. *)
Record dataset := {
  ds_profile : gmap string meta;
  ds_bands : gmap Z ndarray
}.

(** The objects [write_rgb_image] can change: profile objects by location,
    and raster files by path. [open_error path kwargs] is the exception that
    [rasterio.open(path, 'w', **kwargs)] raises, when it raises one: a
    directory that does not exist, keywords the driver refuses (no width or
    height, say). It is decided by the file system and by the installation,
    neither of which [write_rgb_image] changes. *)
Record world := {
  heap : gmap loc (gmap string meta);
  files : gmap string dataset;
  open_error : string → gmap string meta → option exn
}.

Fixpoint ends_with_sep (s : string) : bool :=
  match s with
  | EmptyString => false
  | String c EmptyString => Ascii.eqb c "/"%char
  | String _ rest => ends_with_sep rest
  end.

Definition is_absolute (p : string) : bool :=
  match p with
  | String c _ => Ascii.eqb c "/"%char
  | EmptyString => false
  end.

(** [os.path.join(a, b)]: an absolute [b] replaces [a]; otherwise [b]
    follows [a], after a separator when [a] does not end with one. *)
Definition os_path_join (a b : string) : string :=
  if is_absolute b then b
  else
    match a with
    | EmptyString => b
    | _ => if ends_with_sep a then a +:+ b else a +:+ "/" +:+ b
    end.

(** [profile.update(driver='GTiff', dtype=rasterio.uint8, count=3,
    photometric='RGB')] on the mapping itself. *)
Definition profile_update (p : gmap string meta) : gmap string meta :=
  <["photometric" := MStr "RGB"]>
    (<["count" := MInt 3]>
       (<["dtype" := MStr "uint8"]>
          (<["driver" := MStr "GTiff"]> p))).

(** [rasterio.open(path, 'w', **kwargs)]: raises, or creates or replaces
    the file. *)
Definition rasterio_open_w (path : string) (kwargs : gmap string meta) (w : world)
  : result unit * world :=
  match open_error w path kwargs with
  | Some e => (Raise e, w)
  | None =>
      (Return (),
       {| heap := heap w;
          files := <[path := {| ds_profile := kwargs; ds_bands := ∅ |}]> (files w);
          open_error := open_error w |})
  end.

(** Decimal text of an integer, as Python prints it. *)
Definition repr_int (z : Z) : string := NilZero.string_of_int (Z.to_int z).

(** The text of the error for a band index that the dataset does not have:
    it names the index and the tuple of the indexes there are. *)
Definition band_index_error (bidx count : Z) : string :=
  "band index " +:+ repr_int bidx +:+ " out of range (not in "
  +:+ repr_shape (seq 1 (Z.to_nat count)) +:+ ")".

(** [dst.write_band(bidx, band)]: band indexes run from 1 to the count.
    What rasterio does with an array of another dtype or another height and
    width than the dataset's is not modelled; the properties below are
    stated for arrays of the dataset's dtype and size. *)
Definition write_band (path : string) (bidx : Z) (band : ndarray) (w : world)
  : result unit * world :=
  match files w !! path with
  | None => (Raise (ValueError "dataset is closed"), w)
  | Some ds =>
      match ds_profile ds !! "count" with
      | Some (MInt count) =>
          if (1 <=? bidx) && (bidx <=? count) then
            (Return (),
             {| heap := heap w;
                files := <[path := {| ds_profile := ds_profile ds;
                                      ds_bands := <[bidx := band]> (ds_bands ds) |}]>
                           (files w);
                open_error := open_error w |})
          else (Raise (IndexError (band_index_error bidx count)), w)
      | _ => (Raise (TypeError "count"), w)
      end
  end.

Fixpoint chunks (n size : nat) (l : list Z) : list (list Z) :=
  match n with
  | O => []
  | S n' => take size l :: chunks n' size (drop size l)
  end.

(** Iterating an array yields its sub-arrays along the first axis. *)
Definition iter_first_axis (a : ndarray) : result (list ndarray) :=
  match shape a with
  | [] => Raise (TypeError "iteration over a 0-d array")
  | n :: rest =>
      Return (map (λ d, {| dtype := dtype a; shape := rest; data := d |})
                  (chunks n (foldr Nat.mul 1%nat rest) (data a)))
  end.

(** [for i, band in enumerate(items): dst.write_band(i + 1, band)]. *)
Fixpoint write_bands (path : string) (i : Z) (items : list ndarray) (w : world)
  : result unit * world :=
  match items with
  | [] => (Return (), w)
  | band :: rest =>
      match write_band path (i + 1) band w with
      | (Return _, w') => write_bands path (i + 1) rest w'
      | (Raise e, w') => (Raise e, w')
      end
  end.

(** [profile = bands['profile']] binds the object itself, so
    [profile.update(...)] changes the object the caller's dict refers to. *)
Definition write_rgb_image (bands : gmap string pyobj) (data_path : string)
    (w : world) : result unit * world :=
  match getitem bands "profile" with
  | Raise e => (Raise e, w)
  | Return (PArray _) =>
      (Raise (AttributeError "'numpy.ndarray' object has no attribute 'update'"), w)
  | Return (PProfile profile) =>
      let w := {| heap := alter profile_update profile (heap w);
                  files := files w; open_error := open_error w |} in
      let rgb_path := os_path_join data_path "rgb.tif" in
      match rasterio_open_w rgb_path (default ∅ (heap w !! profile)) w with
      | (Raise e, w) => (Raise e, w)
      | (Return _, w) =>
          match getitem bands "rgb" with
          | Raise e => (Raise e, w)
          | Return (PProfile _) => (Raise (TypeError "band is not an array"), w)
          | Return (PArray rgb) =>
              match iter_first_axis rgb with
              | Raise e => (Raise e, w)
              | Return items => write_bands rgb_path 0 items w
              end
          end
      end
  end.

(** ** From the stack to the file: the notebook's last cells *)


Section Render.

Context {env : Environment}.



End Render.

(** ** Plotting *)

(** A call into matplotlib or [rasterio.plot], with the arguments the
    notebook passes. *)
Inductive plot_event :=
| Subplots (nrows ncols : nat) (figsize : Z * Z)
| Figure (figsize : Z * Z)
| ShowImage (source : ndarray) (panel : option nat) (cmap title : option string)
            (transform : meta) (vmax : option float64)
| PltShow.

(** [bands['profile']['transform']]. *)
Definition profile_transform (heap : gmap loc (gmap string meta))
    (bands : gmap string pyobj) : result meta :=
  profile ← getitem bands "profile";
  match profile with
  | PProfile l => getitem (default ∅ (heap !! l)) "transform"
  | PArray _ =>
      Raise (IndexError "only integers, slices, ellipsis, newaxis and integer or boolean arrays are valid indices")
  end.

(** [bands[k]] where an array is expected. *)
Definition band_array (bands : gmap string pyobj) (k : string) : result ndarray :=
  o ← getitem bands k;
  match o with
  | PArray a => Return a
  | PProfile _ => Raise (TypeError "band is not an array")
  end.

Section Plotting.

(** What [np.percentile] makes of an array without samples differs between
    numpy releases (an IndexError, or NaN with a warning); it is left open. *)
Variable percentile_of_empty : result float64.

(** [np.percentile(a, q)] for an integer array, linear interpolation. *)
Definition np_percentile (a : ndarray) (q : Q) : result float64 :=
  let q := (q / 100)%Q in
  if quantile_is_valid q then
    match data a with
    | [] => percentile_of_empty
    | _ => Return (quantile_1d (map (λ x, Num (inject_Z x)) (data a)) q)
    end
  else Raise (ValueError "Percentiles must be in the range [0, 100]").

(** One [show(bands[k], ax=..., cmap=..., title=..., transform=...,
    vmax=np.percentile(bands['red'], 95))] of [plot_rgb_bands]: the
    arguments are evaluated from left to right, then the call is made. *)
Definition show_band (bands : gmap string pyobj) (k : string) (panel : nat)
    (cmap title : string) (transform : meta) : result plot_event :=
  source ← band_array bands k;
  red ← band_array bands "red";
  vmax ← np_percentile red 95;
  Return (ShowImage source (Some panel) (Some cmap) (Some title) transform (Some vmax)).

(** Appends the event of a step that succeeded, or stops at its error. *)
Definition then_plot (step : result plot_event)
    (rest : list plot_event → result unit * list plot_event)
    (events : list plot_event) : result unit * list plot_event :=
  match step with
  | Return e => rest (events ++ [e])
  | Raise e => (Raise e, events)
  end.

(** [plot_rgb_bands(bands)]: the calls made, in order, and how it ends. *)
Definition plot_rgb_bands (heap : gmap loc (gmap string meta))
    (bands : gmap string pyobj) : result unit * list plot_event :=
  let events := [Subplots 1 3 (21, 7)] in
  match profile_transform heap bands with
  | Raise e => (Raise e, events)
  | Return transform =>
      then_plot (show_band bands "red" 0 "Reds" "Red band" transform)
        (then_plot (show_band bands "green" 1 "Greens" "Green band" transform)
           (then_plot (show_band bands "blue" 2 "Blues" "Blue band" transform)
              (λ events, (Return (), events ++ [PltShow]))))
        events
  end.

End Plotting.

(** [plot_rgb_image(bands)]. *)
Definition plot_rgb_image (heap : gmap loc (gmap string meta))
    (bands : gmap string pyobj) : result unit * list plot_event :=
  let events := [Figure (10, 10)] in
  match band_array bands "rgb" with
  | Raise e => (Raise e, events)
  | Return rgb =>
      match profile_transform heap bands with
      | Raise e => (Raise e, events)
      | Return transform =>
          (Return (), events ++ [ShowImage rgb None None None transform None])
      end
  end.

(** ** Downloading and reading the bands *)

(** What a file holds, or what the body of a response is: a raster that
    rasterio opens (its profile and its bands), or anything else. *)
Inductive content :=
| RasterContent (profile : gmap string meta) (raster_bands : list ndarray)
| OtherContent (body : string).

(** How [get_bands] can fail. *)
Inductive failure :=
| FileNotFoundError (path : string)
| FileExistsError (path : string)
| ConnectionError (url : string)
| RasterioIOError (path : string)
| PythonError (e : exn).

Inductive outcome (A : Type) :=
| Done (a : A)
| Failed (e : failure).
Arguments Done {A} a.
Arguments Failed {A} e.

(** What [get_bands] reads and changes. Paths are identified by their
    spelling; failures of the operating system other than those of
    [os_makedirs] (permissions, a full disk, a data path that is a regular
    file) are not modelled. [web] maps a URL to the body a GET returns,
    whatever the status; a URL without entry cannot be reached. *)
Record machine := {
  directories : gset string;
  stored : gmap string content;
  web : gmap string content;
  objects : gmap loc (gmap string meta);
  printed : list string;
  requested : list string
}.

Definition action (A : Type) : Type := machine → outcome A * machine.

#[global] Instance action_ret : MRet action := λ A a m, (Done a, m).
#[global] Instance action_bind : MBind action := λ A B f act m,
  match act m with
  | (Done a, m') => f a m'
  | (Failed e, m') => (Failed e, m')
  end.

(** [print(s)]. *)
Definition print (s : string) : action unit := λ m,
  (Done (),
   {| directories := directories m; stored := stored m; web := web m;
      objects := objects m; printed := printed m ++ [s];
      requested := requested m |}).

Definition path_exists (p : string) (m : machine) : bool :=
  match p with
  | EmptyString => false
  | _ => bool_decide (p ∈ directories m) || bool_decide (is_Some (stored m !! p))
  end.

(** [os.path.exists(p)]. *)
Definition os_path_exists (p : string) : action bool := λ m,
  (Done (path_exists p m), m).

(** [os.makedirs(p)]: the empty path cannot be created, an existing one is
    refused. *)
Definition os_makedirs (p : string) : action unit := λ m,
  match p with
  | EmptyString => (Failed (FileNotFoundError p), m)
  | _ =>
      if path_exists p m then (Failed (FileExistsError p), m)
      else (Done (),
            {| directories := {[p]} ∪ directories m; stored := stored m;
               web := web m; objects := objects m; printed := printed m;
               requested := requested m |})
  end.

(** [requests.get(url).content]: the request is made, and answered or not. *)
Definition requests_get (url : string) : action content := λ m,
  let m' := {| directories := directories m; stored := stored m; web := web m;
               objects := objects m; printed := printed m;
               requested := requested m ++ [url] |} in
  match web m !! url with
  | Some body => (Done body, m')
  | None => (Failed (ConnectionError url), m')
  end.

(** [with open(path, 'wb') as f: f.write(body)]. *)
Definition write_binary (path : string) (body : content) : action unit := λ m,
  (Done (),
   {| directories := directories m; stored := <[path := body]> (stored m);
      web := web m; objects := objects m; printed := printed m;
      requested := requested m |}).

(** [rasterio.open(path)] for reading: the file must hold a raster. *)
Definition rasterio_open (path : string)
  : action (gmap string meta * list ndarray) := λ m,
  match stored m !! path with
  | Some (RasterContent profile raster_bands) => (Done (profile, raster_bands), m)
  | _ => (Failed (RasterioIOError path), m)
  end.

(** [src.read(bidx)]: band indexes start at 1. *)
Definition read_band (src : gmap string meta * list ndarray) (bidx : nat)
  : action ndarray := λ m,
  match bidx with
  | O => (Failed (PythonError (IndexError "band index out of range")), m)
  | S i =>
      match src.2 !! i with
      | Some band => (Done band, m)
      | None => (Failed (PythonError (IndexError "band index out of range")), m)
      end
  end.

(** [src.profile]: a new profile object each time it is read. *)
Definition new_profile (profile : gmap string meta) : action loc := λ m,
  let l := fresh (dom (objects m)) in
  (Done l,
   {| directories := directories m; stored := stored m; web := web m;
      objects := <[l := profile]> (objects m); printed := printed m;
      requested := requested m |}).

Fixpoint basename_from (acc s : string) : string :=
  match s with
  | EmptyString => acc
  | String c rest =>
      if Ascii.eqb c "/"%char then basename_from EmptyString rest
      else basename_from (acc +:+ String c EmptyString) rest
  end.

(** [os.path.basename(p)]: what follows the last separator. *)
Definition os_path_basename (p : string) : string := basename_from EmptyString p.

Definition newline : string := String (Ascii.ascii_of_nat 10) EmptyString.

(** The body of the loop of [get_bands] for the item [(k, v)]. *)
Definition get_bands_body (data_path file_format : string)
    (bands : gmap string pyobj) (k v : string) : action (gmap string pyobj) :=
  print (os_path_basename v);;
  let band_path := os_path_join data_path (k +:+ "." +:+ file_format) in
  (cached ← os_path_exists band_path;
   if negb cached then
     print "Downloading...";;
     r ← requests_get v;
     write_binary band_path r
   else print "Already downloaded...");;
  src ← rasterio_open band_path;
  print ("Reading..." +:+ newline);;
  band ← read_band src 1;
  let bands := <[k := PArray band]> bands in
  match bands !! "profile" with
  | None =>
      profile ← new_profile src.1;
      mret (<["profile" := PProfile profile]> bands)
  | Some _ => mret bands
  end.

(** [for k, v in band_urls.items(): ...], in the order of the dict. *)
Fixpoint get_bands_loop (data_path file_format : string)
    (bands : gmap string pyobj) (items : list (string * string))
  : action (gmap string pyobj) :=
  match items with
  | [] => mret bands
  | (k, v) :: rest =>
      bands ← get_bands_body data_path file_format bands k v;
      get_bands_loop data_path file_format bands rest
  end.

(** [get_bands(band_urls, data_path, file_format)]. [band_urls] is the dict
    as the list of its items, in their order. *)
Definition get_bands (band_urls : list (string * string))
    (data_path file_format : string) : action (gmap string pyobj) :=
  (present ← os_path_exists data_path;
   if negb present then os_makedirs data_path else mret ());;
  get_bands_loop data_path file_format ∅ band_urls.

(** The path of the file of band [k]. *)
Definition band_file (data_path file_format k : string) : string :=
  os_path_join data_path (k +:+ "." +:+ file_format).

(** The bands [dst.write_band] leaves after writing [items] at the indexes
    that follow [i]. *)
Fixpoint put_bands (i : Z) (items : list ndarray) (written : gmap Z ndarray)
  : gmap Z ndarray :=
  match items with
  | [] => written
  | band :: rest => put_bands (i + 1) rest (<[i + 1 := band]> written)
  end.


(** ** Vocabulary of the properties *)

(** An exception that rejects the value of an argument: Python's ValueError
    or TypeError. Reading an unassigned local (UnboundLocalError, a
    NameError) or a missing key is not one. *)
Definition is_configuration_error (e : exn) : bool :=
  match e with
  | ValueError _ | TypeError _ => true
  | _ => false
  end.

Definition fails_with_configuration_error {A} (r : result A) : Prop :=
  ∃ e, r = Raise e ∧ is_configuration_error e = true.

(** The text an exception carries. *)
Definition exn_message (e : exn) : string :=
  match e with
  | KeyError s | UnboundLocalError s | ValueError s
  | IndexError s | AttributeError s | TypeError s | OSError s => s
  end.

(** [pat in s] on strings. *)
Fixpoint mentions (s pat : string) : bool :=
  String.prefix pat s ||
  match s with
  | EmptyString => false
  | String _ rest => mentions rest pat
  end.

(** The call fails and the error text shows each of the given shapes. *)
Definition fails_reporting_shapes {A} (r : result A) (shapes : list (list nat)) : Prop :=
  ∃ e, r = Raise e ∧
       Forall (λ sh, mentions (exn_message e) (repr_shape sh) = true) shapes.

(** The samples of [band] at the positions where [qa] is not 1. *)
Fixpoint unmasked_pixels (qa band : list Z) : list Z :=
  match qa, band with
  | q :: qa', x :: band' =>
      if Z.eqb q 1 then unmasked_pixels qa' band' else x :: unmasked_pixels qa' band'
  | _, _ => []
  end.

(** The percentile cut points of a list of samples: [np.nanpercentile] of
    the 1-d array that holds them. *)
Definition cut_points (pixels : list Z) (percentile : Q) : result (float64 * float64) :=
  nanpercentile
    (IntArr {| dtype := int64; shape := [length pixels]; data := pixels |})
    (percentile, (100 - percentile)%Q).



(** An output band of the normalizer for the source band [src]. *)
Definition normalized_band (src out : ndarray) : Prop :=
  dtype out = uint8 ∧ shape out = shape src ∧
  length (data out) = length (data src) ∧
  Forall (λ v, 0 <= v <= 255) (data out).

(** Instances used to run the pipeline on concrete inputs: a conversion of
    non-finite floats as x86-64 performs it (the "integer indefinite" value,
    before wrap-around), an equalizer that only rescales the samples to
    [0, 1] by the range of their dtype, and the treatment of equal cut
    points of a recent scikit-image. *)
Definition invalid_cast_x86_64 (dt : np_dtype) : Z := - 2 ^ 63.

(** The release that clips the number to the output range. *)
Definition clipped_to_range (dt out : np_dtype) (v : Q) : Z :=
  let '(lo, hi) := dtype_range out in
  Qtrunc (Qmax (inject_Z lo) (Qmin (inject_Z hi) v)).

Definition dtype_rescaler (image : ndarray) (clip_limit : Q) : farray :=
  let '(lo, hi) := dtype_range (dtype image) in
  {| fshape := shape image;
     fdata := map (λ x, Num (inject_Z (Z.max lo (Z.min hi x) - lo) / inject_Z (hi - lo))%Q)
                  (data image) |}.

(** The band of the scenario [[0, 0], [100, 200]], as numpy builds it from
    Python integers. *)
Definition scenario_band : ndarray :=
  {| dtype := int64; shape := [2%nat; 2%nat]; data := [0; 0; 100; 200] |}.

#[global] Instance reference_environment : Environment := {|
  equalize_adapthist := dtype_rescaler;
  invalid_cast := invalid_cast_x86_64;
  rescale_equal_range := clipped_to_range
|}.

(** The scenario band under each colour, without and with a 'qa' band that
    flags the last pixel as fill. *)
Definition scenario_bands : gmap string ndarray :=
  <["red" := scenario_band]>
    (<["green" := scenario_band]> (<["blue" := scenario_band]> ∅)).

(** A constant band. *)
Definition constant_band : ndarray :=
  {| dtype := uint16; shape := [2%nat; 2%nat]; data := [5; 5; 5; 5] |}.

Definition scenario_qa : ndarray :=
  {| dtype := uint16; shape := [2%nat; 2%nat]; data := [0; 0; 0; 1] |}.

Definition scenario_bands_qa : gmap string ndarray :=
  <["qa" := scenario_qa]> scenario_bands.

(** A green band of another shape than red and blue. *)
Definition mismatched_bands : gmap string ndarray :=
  <["green" := {| dtype := int64; shape := [1%nat; 2%nat]; data := [5; 7] |}]>
    scenario_bands.

(** A scene as [get_bands] leaves it, once the stack is stored under 'rgb':
    one profile object, at location 1, which the dict refers to. *)
Definition scene_profile : gmap string meta :=
  <["driver" := MStr "GTiff"]>
    (<["dtype" := MStr "uint16"]>
       (<["count" := MInt 1]>
          (<["width" := MInt 2]> (<["height" := MInt 2]> ∅)))).

(** An installation whose [rasterio.open] refuses keywords without an
    integer width and height, and nothing else. *)
Definition refuses_without_size (path : string) (kwargs : gmap string meta)
  : option exn :=
  match kwargs !! "width", kwargs !! "height" with
  | Some (MInt _), Some (MInt _) => None
  | _, _ => Some (TypeError "Integer width and height are required.")
  end.

Definition scene_world : world :=
  {| heap := <[1%positive := scene_profile]> ∅; files := ∅;
     open_error := refuses_without_size |}.

Definition scene_bands : gmap string pyobj :=
  <["profile" := PProfile 1%positive]>
    (<["rgb" := PArray {| dtype := uint8;
                          shape := [3%nat; 2%nat; 2%nat];
                          data := [0; 0; 131; 255; 0; 0; 131; 255; 0; 0; 131; 255] |}]>
       ∅).


(** A profile with georeferencing, the dict of a scene as [get_bands]
    returns it, and the profile object the dict refers to. *)
Definition georeferenced_profile : gmap string meta :=
  <["transform" := MOpaque 0]> (<["crs" := MOpaque 1]> scene_profile).

Definition loaded_world : world :=
  {| heap := <[1%positive := georeferenced_profile]> ∅; files := ∅;
     open_error := refuses_without_size |}.

Definition loaded_bands : gmap string pyobj :=
  <["profile" := PProfile 1%positive]>
    (<["red" := PArray scenario_band]>
       (<["green" := PArray scenario_band]>
          (<["blue" := PArray scenario_band]> ∅))).

(** A dict whose 'rgb' entry has four sub-arrays along its first axis. *)
Definition four_channel_bands : gmap string pyobj :=
  <["profile" := PProfile 1%positive]>
    (<["rgb" := PArray {| dtype := uint8;
                          shape := [4%nat; 2%nat; 2%nat];
                          data := [10; 10; 10; 10; 20; 20; 20; 20;
                                   30; 30; 30; 30; 40; 40; 40; 40] |}]>
       ∅).

(** A 'qa' band that flags every pixel as fill. *)
Definition all_fill_qa : ndarray :=
  {| dtype := uint16; shape := [2%nat; 2%nat]; data := [1; 1; 1; 1] |}.

(** One band to fetch, and three machines: one with an empty disk and a
    server that sends the raster, one with the raster on disk and no
    server, one with an empty disk and a server that sends an error page. *)
Definition scene_url : string := "http://host/scene_B4.TIF".

Definition scene_urls : list (string * string) := [("red", scene_url)].

Definition scene_raster : content :=
  RasterContent georeferenced_profile [scenario_band].

Definition online_machine : machine :=
  {| directories := ∅; stored := ∅; web := <[scene_url := scene_raster]> ∅;
     objects := ∅; printed := []; requested := [] |}.

Definition offline_machine : machine :=
  {| directories := {["data"]}; stored := <["data/red.tif" := scene_raster]> ∅;
     web := ∅; objects := ∅; printed := []; requested := [] |}.

Definition failing_machine : machine :=
  {| directories := ∅; stored := ∅;
     web := <[scene_url := OtherContent "Not Found"]> ∅;
     objects := ∅; printed := []; requested := [] |}.


(** The machine the failing one becomes once the server sends the raster:
    the disk as the failed call left it. *)
Definition recovered_machine : machine :=
  {| directories := directories (get_bands scene_urls "data" "tif" failing_machine).2;
     stored := stored (get_bands scene_urls "data" "tif" failing_machine).2;
     web := web online_machine; objects := ∅; printed := []; requested := [] |}.


(** ** Facts about the models *)

Lemma getitem_Some {V} (d : gmap string V) k v :
  d !! k = Some v → getitem d k = Return v.
Proof. unfold getitem. by intros ->. Qed.

Lemma getitem_None {V} (d : gmap string V) k :
  d !! k = None → getitem d k = Raise (KeyError k).
Proof. unfold getitem. by intros ->. Qed.

Lemma prefix_append (x b : string) : String.prefix x (x +:+ b) = true.
Proof.
  induction x as [|a x IH]; simpl.
  - by destruct b.
  - by destruct (ascii_dec a a).
Qed.

Lemma mentions_here (s pat : string) :
  String.prefix pat s = true → mentions s pat = true.
Proof. intros Hp. destruct s; cbn [mentions]; by rewrite Hp. Qed.

Lemma mentions_skip (a s pat : string) :
  mentions s pat = true → mentions (a +:+ s) pat = true.
Proof.
  intros Hs. induction a as [|c a IH]; [done|].
  simpl. rewrite IH. apply orb_true_r.
Qed.

Lemma repr_shape_paren (sh : list nat) :
  ∃ t, repr_shape sh = String "("%char t.
Proof.
  unfold repr_shape. destruct sh as [|n [|m rest]]; eexists; reflexivity.
Qed.

(** The text of [np.stack]'s error shows no shape: it has no parenthesis. *)
Lemma stack_error_names_no_shape (sh : list nat) :
  mentions "all input arrays must have the same shape" (repr_shape sh) = false.
Proof. destruct (repr_shape_paren sh) as [t ->]. reflexivity. Qed.

(** The text of [masked_where]'s error shows both shapes. *)
Lemma inconsistent_shape_names_shapes (cshape ashape : list nat) :
  mentions (inconsistent_shape cshape ashape) (repr_shape cshape) = true ∧
  mentions (inconsistent_shape cshape ashape) (repr_shape ashape) = true.
Proof.
  unfold inconsistent_shape. split.
  - apply mentions_skip, mentions_here, prefix_append.
  - do 3 apply mentions_skip. apply mentions_here, prefix_append.
Qed.



Lemma cast_int_uint8_mod z : cast_int uint8 z = z mod 256.
Proof. reflexivity. Qed.


Lemma cast_int_uint8_range z : 0 <= cast_int uint8 z <= 255.
Proof.
  unfold cast_int. cbn [dtype_signed dtype_bits]. change (2 ^ 8) with 256.
  pose proof (Z.mod_pos_bound z 256). lia.
Qed.

Lemma wrap_unsigned_mod_256 z j :
  0 < j → (z mod (256 * j)) mod 256 = z mod 256.
Proof.
  intros Hj. rewrite (Z.mod_eq z (256 * j)) by lia.
  replace (z - 256 * j * (z / (256 * j)))
    with (z + (- (j * (z / (256 * j)))) * 256) by lia.
  apply Z_mod_plus_full.
Qed.

Lemma wrap_signed_mod_256 z j half :
  0 < j → ((z + half) mod (256 * j) - half) mod 256 = z mod 256.
Proof.
  intros Hj. rewrite (Z.mod_eq (z + half) (256 * j)) by lia.
  replace (z + half - 256 * j * ((z + half) / (256 * j)) - half)
    with (z + (- (j * ((z + half) / (256 * j)))) * 256) by lia.
  apply Z_mod_plus_full.
Qed.

(** Converting through any integer dtype and then to uint8 is converting
    to uint8. *)
Lemma cast_uint8_cast_int dt z : cast_int uint8 (cast_int dt z) = cast_int uint8 z.
Proof.
  rewrite !cast_int_uint8_mod. unfold cast_int.
  destruct dt; cbn [dtype_signed dtype_bits].
  - change (2 ^ 8) with (256 * 1). apply wrap_unsigned_mod_256. lia.
  - change (2 ^ 8) with (256 * 1). apply wrap_signed_mod_256. lia.
  - change (2 ^ 16) with (256 * 2 ^ 8). apply wrap_unsigned_mod_256. lia.
  - change (2 ^ 16) with (256 * 2 ^ 8). apply wrap_signed_mod_256. lia.
  - change (2 ^ 32) with (256 * 2 ^ 24). apply wrap_unsigned_mod_256. lia.
  - change (2 ^ 32) with (256 * 2 ^ 24). apply wrap_signed_mod_256. lia.
  - change (2 ^ 64) with (256 * 2 ^ 56). apply wrap_signed_mod_256. lia.
Qed.


Lemma quantile_is_valid_percent p :
  (0 <= p <= 100)%Q →
  quantile_is_valid (p / 100) && quantile_is_valid ((100 - p) / 100) = true.
Proof.
  intros [H0 H1]. unfold quantile_is_valid.
  rewrite !andb_true_iff, !Qle_bool_iff.
  repeat split.
  - apply Qle_shift_div_l; [reflexivity | lra].
  - apply Qle_shift_div_r; [reflexivity | lra].
  - apply Qle_shift_div_l; [reflexivity | lra].
  - apply Qle_shift_div_r; [reflexivity | lra].
Qed.


Lemma nanpercentile_valid a p :
  (0 <= p <= 100)%Q →
  array_values a ≠ [] →
  ∃ vmin vmax, nanpercentile a (p, (100 - p)%Q) = Return (vmin, vmax).
Proof.
  intros Hp Hne. unfold nanpercentile. cbn [fst snd].
  rewrite (quantile_is_valid_percent p Hp).
  destruct (array_values a) as [|x l]; [done|].
  destruct (remove_nan (x :: l)); eauto.
Qed.

Lemma nanpercentile_ext a b q :
  (array_values a = [] ↔ array_values b = []) →
  remove_nan (array_values a) = remove_nan (array_values b) →
  nanpercentile a q = nanpercentile b q.
Proof.
  unfold nanpercentile. intros Hempty ->.
  destruct (array_values a) as [|x l], (array_values b) as [|y l']; try done.
  - discriminate (proj1 Hempty eq_refl).
  - discriminate (proj2 Hempty eq_refl).
Qed.

Lemma remove_nan_ints (l : list Z) :
  remove_nan (map (λ x, Num (inject_Z x)) l) = map (λ x, Num (inject_Z x)) l.
Proof.
  unfold remove_nan. induction l as [|x l IH]; [done|].
  cbn [map]. rewrite filter_cons_True by done. by rewrite IH.
Qed.

Lemma remove_nan_filled (qa band : list Z) :
  remove_nan (zip_with (λ (b : bool) x, if b then NaN else Num (inject_Z x))
                (map (λ q, Z.eqb q 1) qa) band)
  = map (λ x, Num (inject_Z x)) (unmasked_pixels qa band).
Proof.
  unfold remove_nan. revert band.
  induction qa as [|q qa IH]; intros [|x band]; try done.
  cbn [map zip_with unmasked_pixels]. destruct (Z.eqb q 1).
  - rewrite filter_cons_False by (intros Hn; by apply Hn). apply IH.
  - rewrite filter_cons_True by done. cbn [map]. by rewrite IH.
Qed.

Lemma nanpercentile_ints a pixels p :
  (array_values a = [] ↔ pixels = []) →
  remove_nan (array_values a) = map (λ x, Num (inject_Z x)) pixels →
  nanpercentile a (p, (100 - p)%Q) = cut_points pixels p.
Proof.
  intros Hempty Ha. unfold cut_points. apply nanpercentile_ext.
  - rewrite Hempty. cbn [array_values data]. by destruct pixels.
  - rewrite Ha. cbn [array_values data]. by rewrite remove_nan_ints.
Qed.

Lemma nanpercentile_band band p :
  nanpercentile (IntArr band) (p, (100 - p)%Q) = cut_points (data band) p.
Proof.
  apply nanpercentile_ints; cbn [array_values]; [|apply remove_nan_ints].
  by destruct (data band).
Qed.











(** ** Properties of [create_rgb_stack] *)

Section PipelineFacts.

Context {env : Environment}.

Lemma modify_band_unknown bands method p c current band :
  method ≠ "rescaling" → method ≠ "clahe" →
  modify_band bands method p c current band = Return current.
Proof.
  intros H1 H2. unfold modify_band.
  apply String.eqb_neq in H1, H2. by rewrite H1, H2.
Qed.

(** C1, as the code behaves: with a method that is neither 'rescaling' nor
    'clahe' and a mapping that has 'red', 'green' and 'blue', the call
    fails in the first loop iteration with UnboundLocalError for the local
    [modified_band], whatever the arrays hold. No array is computed on. *)
Theorem create_rgb_stack_unknown_method bands method percentile clip_limit
    red green blue :
  bands !! "red" = Some red →
  bands !! "green" = Some green →
  bands !! "blue" = Some blue →
  method ≠ "rescaling" → method ≠ "clahe" →
  create_rgb_stack bands method percentile clip_limit
  = Raise (UnboundLocalError "modified_band") ∧
  ¬ fails_with_configuration_error
      (create_rgb_stack bands method percentile clip_limit).
Proof.
  intros Hr Hg Hb H1 H2.
  assert (create_rgb_stack bands method percentile clip_limit
          = Raise (UnboundLocalError "modified_band")) as Hraise;
    [|split; [done|]; rewrite Hraise; by intros (e & [= <-] & Hc)].
  unfold create_rgb_stack.
  rewrite (getitem_Some _ _ _ Hr), (getitem_Some _ _ _ Hg), (getitem_Some _ _ _ Hb).
  simpl. unfold loop_body. simpl.
  by rewrite modify_band_unknown.
Qed.

Lemma modify_band_clahe bands p c current band :
  modify_band bands "clahe" p c current band
  = Return (Some (fastype uint8 (fscale (equalize_adapthist band c) 255))).
Proof. reflexivity. Qed.

Lemma masked_band_of_no_qa bands band :
  bands !! "qa" = None → masked_band_of bands band = Return (IntArr band).
Proof. unfold masked_band_of, getitem. by intros ->. Qed.

Lemma modify_band_rescaling bands p c current band :
  modify_band bands "rescaling" p c current band
  = (masked_band ← masked_band_of bands band;
     '(vmin, vmax) ← nanpercentile masked_band (p, (100 - p)%Q);
     Return (Some (astype uint8 (rescale_intensity band (vmin, vmax) uint8)))).
Proof. reflexivity. Qed.

(** C9: the band [[0, 0], [100, 200]] without fill mask, rescaled with
    percentile 2: the cut points are 0 and 194, the samples 0, 100 and 200
    become 0, 131 and 255, so the order of the samples is kept, the
    smallest maps to 0 and the largest to 255. *)
Theorem scenario_rescaling_keeps_order bands clip_limit current :
  bands !! "qa" = None →
  ∃ vmin vmax out r0 r100 r200,
    nanpercentile (IntArr scenario_band) (2, 100 - 2)%Q
    = Return (Num vmin, Num vmax) ∧ (vmin == 0)%Q ∧ (vmax == 194)%Q ∧
    modify_band bands "rescaling" 2 clip_limit current scenario_band
    = Return (Some out) ∧
    dtype out = uint8 ∧ shape out = [2; 2]%nat ∧
    data out = [r0; r0; r100; r200] ∧
    r0 < r100 < r200 ∧ r0 = 0 ∧ r200 = 255.
Proof.
  intros Hqa. rewrite modify_band_rescaling, (masked_band_of_no_qa _ _ Hqa).
  eexists _, _,
    {| dtype := uint8; shape := [2; 2]%nat; data := [0; 0; 131; 255] |},
    0, 131, 255.
  split; [vm_compute; reflexivity|].
  split; [reflexivity|]. split; [reflexivity|].
  split; [vm_compute; reflexivity|].
  repeat split; lia.
Qed.

Lemma masked_band_of_compatible bands band :
  (∀ qa, bands !! "qa" = Some qa → shape qa = shape band) →
  ∃ masked_band, masked_band_of bands band = Return masked_band.
Proof.
  intros Hqa. unfold masked_band_of, getitem.
  destruct (bands !! "qa") as [qa|] eqn:E; [|cbn; eauto]. cbn [mbind result_bind].
  specialize (Hqa qa eq_refl).
  unfold masked_where, np_equal_scalar. rewrite Hqa.
  destruct (shape band) as [|n rest] eqn:Es; [cbn; eauto|].
  rewrite decide_True by done. cbn. eauto.
Qed.

(** The copy the percentiles are taken of has a sample when the band and a
    'qa' band, if there is one, have. *)
Lemma masked_band_of_values bands band masked_band :
  masked_band_of bands band = Return masked_band →
  data band ≠ [] →
  (∀ qa, bands !! "qa" = Some qa → data qa ≠ []) →
  array_values masked_band ≠ [].
Proof.
  unfold masked_band_of, getitem. intros Hmb Hband Hqa.
  destruct (bands !! "qa") as [qa|] eqn:E.
  2:{ cbn in Hmb. injection Hmb as <-. cbn [array_values].
      by destruct (data band). }
  specialize (Hqa qa eq_refl). cbn [mbind result_bind] in Hmb.
  unfold masked_where, np_equal_scalar in Hmb.
  destruct (shape qa) as [|n rest].
  - cbn in Hmb. injection Hmb as <-. cbn [array_values ma_filled_float fdata ma_mask ma_data].
    destruct (data band); [done|]. by cbn.
  - destruct (decide (n :: rest = shape band)); cbn in Hmb; [|done].
    injection Hmb as <-. cbn [array_values ma_filled_float fdata ma_mask ma_data].
    destruct (data qa), (data band); try done.
Qed.

Lemma rescale_intensity_shape image in_range out_range :
  dtype (rescale_intensity image in_range out_range) = dtype image ∧
  shape (rescale_intensity image in_range out_range) = shape image ∧
  length (data (rescale_intensity image in_range out_range)) = length (data image).
Proof.
  unfold rescale_intensity. destruct in_range as [imin imax].
  destruct (intensity_range_dtype _ _) as [omin omax]. cbn [dtype shape data].
  destruct (equal_range (imin, imax)); by rewrite !length_map.
Qed.

Lemma astype_uint8_normalized src a :
  shape a = shape src → length (data a) = length (data src) →
  normalized_band src (astype uint8 a).
Proof.
  intros Hs Hl. unfold normalized_band, astype. cbn [dtype shape data].
  rewrite length_map. repeat split; try done.
  apply Forall_fmap, Forall_forall. intros z _. apply cast_int_uint8_range.
Qed.

Lemma fastype_uint8_normalized src f :
  fshape f = shape src → length (fdata f) = length (data src) →
  normalized_band src (fastype uint8 f).
Proof.
  intros Hs Hl. unfold normalized_band, fastype. cbn [dtype shape data].
  rewrite length_map. repeat split; try done.
  apply Forall_fmap, Forall_forall. intros x _.
  destruct x; cbn [float_to_int]; apply cast_int_uint8_range.
Qed.

Lemma create_rgb_stack_stacks bands method p c red green blue r g b :
  bands !! "red" = Some red →
  bands !! "green" = Some green →
  bands !! "blue" = Some blue →
  (∀ current, modify_band bands method p c current red = Return (Some r)) →
  (∀ current, modify_band bands method p c current green = Return (Some g)) →
  (∀ current, modify_band bands method p c current blue = Return (Some b)) →
  create_rgb_stack bands method p c = np_stack [r; g; b].
Proof.
  intros Hr Hg Hb Mr Mg Mb. unfold create_rgb_stack.
  rewrite (getitem_Some _ _ _ Hr), (getitem_Some _ _ _ Hg), (getitem_Some _ _ _ Hb).
  cbn [mbind result_bind for_loop]. unfold loop_body.
  rewrite Mr. cbn [mbind result_bind modified_band modified_bands].
  rewrite Mg. cbn [mbind result_bind modified_band modified_bands].
  rewrite Mb. cbn [mbind result_bind modified_band modified_bands].
  reflexivity.
Qed.

Lemma masked_band_of_scalar_qa bands band qa :
  bands !! "qa" = Some qa → shape qa = [] →
  ∃ masked_band, masked_band_of bands band = Return masked_band.
Proof.
  intros Hqa Hs. unfold masked_band_of, getitem. rewrite Hqa.
  cbn [mbind result_bind]. unfold masked_where, np_equal_scalar. rewrite Hs.
  cbn. eauto.
Qed.

Lemma masked_band_of_qa_mismatch bands band qa n rest :
  bands !! "qa" = Some qa → shape qa = n :: rest → n :: rest ≠ shape band →
  masked_band_of bands band
  = Raise (IndexError (inconsistent_shape (n :: rest) (shape band))).
Proof.
  intros Hqa Hs Hne. unfold masked_band_of, getitem. rewrite Hqa.
  cbn [mbind result_bind]. unfold masked_where, np_equal_scalar. rewrite Hs.
  by rewrite decide_False.
Qed.

Lemma masked_band_of_qa bands band qa n rest :
  bands !! "qa" = Some qa → shape band = n :: rest → shape qa = n :: rest →
  masked_band_of bands band
  = Return (FloatArr {| fshape := shape band;
                        fdata := zip_with (λ (b : bool) x,
                                    if b then NaN else Num (inject_Z x))
                                   (map (λ q, Z.eqb q 1) (data qa)) (data band) |}).
Proof.
  intros Hqa Hb Hs. unfold masked_band_of, getitem. rewrite Hqa.
  cbn [mbind result_bind]. unfold masked_where, np_equal_scalar. rewrite Hs.
  rewrite decide_True by congruence. reflexivity.
Qed.

(** C10: on the 'rescaling' path the fill pixels are exactly those where
    the 'qa' band equals 1: in the copy the percentiles are taken of, such
    a position holds NaN and every other position holds the band's sample;
    without a 'qa' key no KeyError leaves the call, the percentiles are
    those of all samples of the band. *)
Theorem fill_mask_is_qa_equal_1 bands band (h w : nat) :
  shape band = [h; w] →
  (∀ qa, bands !! "qa" = Some qa → shape qa = [h; w] →
     ∃ masked,
       masked_band_of bands band = Return (FloatArr masked) ∧
       fshape masked = shape band ∧
       ∀ i q x, data qa !! i = Some q → data band !! i = Some x →
         fdata masked !! i = Some (if decide (q = 1) then NaN else Num (inject_Z x)))
  ∧ (bands !! "qa" = None →
     getitem bands "qa" = Raise (KeyError "qa") ∧
     masked_band_of bands band = Return (IntArr band) ∧
     ∀ p c current,
       modify_band bands "rescaling" p c current band
       = ('(vmin, vmax) ← cut_points (data band) p;
          Return (Some (astype uint8 (rescale_intensity band (vmin, vmax) uint8))))).
Proof.
  intros Hb. split.
  - intros qa Hqa Hs. eexists. split; [by eapply masked_band_of_qa|].
    split; [done|]. cbn [fdata]. intros i q x Hq Hx.
    rewrite lookup_zip_with, list_lookup_fmap, Hq, Hx. cbn.
    destruct (Z.eqb_spec q 1) as [->|Hne].
    + by rewrite decide_True.
    + by rewrite decide_False.
  - intros Hqa. split; [by apply getitem_None|].
    split; [by apply masked_band_of_no_qa|].
    intros p c current.
    rewrite modify_band_rescaling, (masked_band_of_no_qa _ _ Hqa).
    cbn [mbind result_bind].
    by rewrite nanpercentile_band.
Qed.

(** C5: with a 'qa' band that leaves at least one pixel unmasked, the cut
    points are the percentiles [p] and [100 - p] of the samples that are
    not fill pixels, and the rescale to [0, 255] is applied to the band
    itself, fill pixels included. *)
Theorem rescaling_cut_points_skip_fill_pixels bands qa band p c current (h w : nat) :
  bands !! "qa" = Some qa →
  shape band = [h; w] → shape qa = [h; w] →
  unmasked_pixels (data qa) (data band) ≠ [] →
  modify_band bands "rescaling" p c current band
  = ('(vmin, vmax) ← cut_points (unmasked_pixels (data qa) (data band)) p;
     Return (Some (astype uint8 (rescale_intensity band (vmin, vmax) uint8)))).
Proof.
  intros Hqa Hb Hs Hne.
  rewrite modify_band_rescaling, (masked_band_of_qa _ _ _ _ _ Hqa Hb Hs).
  cbn [mbind result_bind].
  rewrite (nanpercentile_ints _ (unmasked_pixels (data qa) (data band)) p); [done| |].
  - cbn [array_values fdata]. split; [|done]. intros Hempty.
    pose proof (remove_nan_filled (data qa) (data band)) as Hfilled.
    rewrite Hempty in Hfilled. symmetry in Hfilled.
    by apply map_eq_nil in Hfilled.
  - cbn [array_values fdata]. apply remove_nan_filled.
Qed.

Lemma intensity_range_uint8 clip_negative :
  intensity_range_dtype uint8 clip_negative = (0, 255).
Proof. by destruct clip_negative. Qed.





(** X1: before anything else the three colour bands are looked up, in the order
    red, green, blue: without 'red' the call raises KeyError for it, whatever
    the method. *)
Theorem create_rgb_stack_missing_red bands method percentile clip_limit :
  bands !! "red" = None →
  create_rgb_stack bands method percentile clip_limit = Raise (KeyError "red").
Proof.
  intros Hr. unfold create_rgb_stack. by rewrite (getitem_None _ _ Hr).
Qed.



End PipelineFacts.

(** ** Properties that rest on the equalizer's documented behaviour *)

Section EqualizerContract.

Context {env : Environment}.

(** The documented behaviour of the equalizer: an image of the same shape
    with values in [0, 1]. *)
Hypothesis equalize_adapthist_shape : ∀ image clip_limit,
  fshape (equalize_adapthist image clip_limit) = shape image ∧
  length (fdata (equalize_adapthist image clip_limit)) = length (data image).
Hypothesis equalize_adapthist_range : ∀ image clip_limit,
  Forall (λ x, ∃ q, x = Num q ∧ (0 <= q <= 1)%Q)
         (fdata (equalize_adapthist image clip_limit)).

(** The loop body on a recognized method: it assigns a normalized band,
    whatever the local held before. *)
Lemma modify_band_normalized bands method p c band :
  method = "clahe" ∨
  (method = "rescaling" ∧ (0 <= p <= 100)%Q ∧
   data band ≠ [] ∧ (∀ qa, bands !! "qa" = Some qa → data qa ≠ []) ∧
   ∃ masked_band, masked_band_of bands band = Return masked_band) →
  ∃ out, (∀ current, modify_band bands method p c current band = Return (Some out)) ∧
         normalized_band band out.
Proof.
  intros [-> | (-> & Hp & Hband & Hqa & mb & Hmb)].
  - eexists. split; [intros; apply modify_band_clahe|].
    destruct (equalize_adapthist_shape band c) as [Hs Hl].
    apply fastype_uint8_normalized; cbn [fscale fshape fdata]; [done|].
    by rewrite length_map.
  - destruct (nanpercentile_valid mb p Hp) as (vmin & vmax & Hcut);
      [by eapply masked_band_of_values|].
    eexists. split.
    + intros current. rewrite modify_band_rescaling, Hmb. cbn [mbind result_bind].
      rewrite Hcut. reflexivity.
    + destruct (rescale_intensity_shape band (vmin, vmax) uint8) as (_ & Hs & Hl).
      by apply astype_uint8_normalized.
Qed.

(** C4: for bands of one 2-D shape that have a sample (a 'qa' band, when
    there is one and the method reads it, of that shape and with a sample
    too) and either recognized method, each normalized band has the shape
    of its source, dtype uint8 and values in [0, 255]; the result is the
    3 x H x W uint8 array of the red, green and blue results, in this
    order. *)
Theorem create_rgb_stack_normalized bands method percentile clip_limit
    red green blue (h w : nat) :
  bands !! "red" = Some red →
  bands !! "green" = Some green →
  bands !! "blue" = Some blue →
  shape red = [h; w] → shape green = [h; w] → shape blue = [h; w] →
  data red ≠ [] → data green ≠ [] → data blue ≠ [] →
  method = "clahe" ∨
  (method = "rescaling" ∧ (0 <= percentile <= 100)%Q ∧
   ∀ qa, bands !! "qa" = Some qa → shape qa = [h; w] ∧ data qa ≠ []) →
  ∃ r g b,
    (∀ current, modify_band bands method percentile clip_limit current red
                = Return (Some r)) ∧
    (∀ current, modify_band bands method percentile clip_limit current green
                = Return (Some g)) ∧
    (∀ current, modify_band bands method percentile clip_limit current blue
                = Return (Some b)) ∧
    normalized_band red r ∧ normalized_band green g ∧ normalized_band blue b ∧
    create_rgb_stack bands method percentile clip_limit
    = Return {| dtype := uint8;
                shape := [3; h; w]%nat;
                data := data r ++ data g ++ data b |}.
Proof.
  intros Hr Hg Hb Sr Sg Sb Dr' Dg' Db' Hm.
  assert (∀ band, shape band = [h; w] → data band ≠ [] →
            method = "clahe" ∨
            (method = "rescaling" ∧ (0 <= percentile <= 100)%Q ∧
             data band ≠ [] ∧ (∀ qa, bands !! "qa" = Some qa → data qa ≠ []) ∧
             ∃ masked_band, masked_band_of bands band = Return masked_band)) as Hm'.
  { intros band Hs Hd. destruct Hm as [->|(-> & Hp & Hqa)]; [by left|right].
    split; [done|]. split; [done|]. split; [done|].
    split; [intros qa Hsome; by apply Hqa|].
    apply masked_band_of_compatible.
    intros qa Hsome. rewrite Hs. by apply Hqa. }
  destruct (modify_band_normalized bands method percentile clip_limit red (Hm' _ Sr Dr'))
    as (r & Mr & Nr).
  destruct (modify_band_normalized bands method percentile clip_limit green (Hm' _ Sg Dg'))
    as (g & Mg & Ng).
  destruct (modify_band_normalized bands method percentile clip_limit blue (Hm' _ Sb Db'))
    as (b & Mb & Nb).
  exists r, g, b. repeat (split; [done|]).
  rewrite (create_rgb_stack_stacks _ _ _ _ _ _ _ _ _ _ Hr Hg Hb Mr Mg Mb).
  destruct Nr as (Dr & Shr & _), Ng as (Dg & Shg & _), Nb as (Db & Shb & _).
  unfold np_stack, all_same_shape. cbn [forallb].
  rewrite Shr, Shg, Shb, Sr, Sg, Sb, Dr.
  rewrite !bool_decide_eq_true_2 by done.
  cbn [andb length concat map]. by rewrite app_nil_r.
Qed.


(** Bands of differing shapes: which check fails first, and with what. *)
Lemma shape_mismatch_cases bands method percentile clip_limit
    red green blue :
  bands !! "red" = Some red →
  bands !! "green" = Some green →
  bands !! "blue" = Some blue →
  method = "clahe" ∨ (method = "rescaling" ∧ (0 <= percentile <= 100)%Q) →
  data red ≠ [] → data green ≠ [] → data blue ≠ [] →
  (∀ qa, bands !! "qa" = Some qa → data qa ≠ []) →
  ¬ (shape red = shape green ∧ shape green = shape blue) →
  create_rgb_stack bands method percentile clip_limit
  = Raise (ValueError "all input arrays must have the same shape")
  ∨ (method = "rescaling" ∧
     ∃ qa band,
       bands !! "qa" = Some qa ∧ band ∈ [red; green; blue] ∧
       shape qa ≠ shape band ∧
       create_rgb_stack bands method percentile clip_limit
       = Raise (IndexError (inconsistent_shape (shape qa) (shape band)))).
Proof.
  intros Hr Hg Hb Hm Dr Dg Db Dqa Hne.
  assert ((∀ band, data band ≠ [] → ∃ out,
             (∀ current, modify_band bands method percentile clip_limit current band
                         = Return (Some out)) ∧ shape out = shape band) →
          create_rgb_stack bands method percentile clip_limit
          = Raise (ValueError "all input arrays must have the same shape")) as Hstack.
  { intros Hall.
    destruct (Hall red Dr) as (r & Mr & Sr), (Hall green Dg) as (g & Mg & Sg),
             (Hall blue Db) as (b & Mb & Sb).
    rewrite (create_rgb_stack_stacks _ _ _ _ _ _ _ _ _ _ Hr Hg Hb Mr Mg Mb).
    unfold np_stack, all_same_shape. cbn [forallb]. rewrite Sr, Sg, Sb.
    destruct (decide (shape green = shape red)) as [E1|N1].
    - destruct (decide (shape blue = shape red)) as [E2|N2].
      + exfalso. apply Hne. split; congruence.
      + rewrite (bool_decide_eq_false_2 _ N2). by rewrite andb_false_r.
    - by rewrite (bool_decide_eq_false_2 _ N1). }
  assert (∀ band, data band ≠ [] →
            method = "clahe" ∨
            (method = "rescaling" ∧
             ∃ masked_band, masked_band_of bands band = Return masked_band) →
            ∃ out,
              (∀ current, modify_band bands method percentile clip_limit current band
                          = Return (Some out)) ∧ shape out = shape band) as Hnorm.
  { intros band Hband Hok.
    destruct (modify_band_normalized bands method percentile clip_limit band)
      as (out & Mout & _ & Sout & _); [|eauto].
    destruct Hm as [->|[-> Hp]]; [by left|right].
    destruct Hok as [?|[_ Hmb]]; [done|]. done. }
  destruct Hm as [->|[-> Hp]].
  { left. apply Hstack. intros band Hband. apply Hnorm; [done|]. by left. }
  destruct (bands !! "qa") as [qa|] eqn:Hqa.
  2:{ left. apply Hstack. intros band Hband. apply Hnorm; [done|]. right.
      split; [done|]. rewrite masked_band_of_no_qa by done. eauto. }
  destruct (shape qa) as [|n rest] eqn:Sqa.
  { left. apply Hstack. intros band Hband. apply Hnorm; [done|]. right.
    split; [done|]. exact (masked_band_of_scalar_qa _ band _ Hqa Sqa). }
  assert (∀ band, data band ≠ [] → shape qa = shape band →
                  ∃ out, ∀ current,
                    modify_band bands "rescaling" percentile clip_limit current band
                    = Return (Some out)) as Hsame.
  { intros band Hband Hs. destruct (Hnorm band Hband) as (out & Mout & _); [|eauto].
    right. split; [done|]. apply masked_band_of_compatible.
    intros qa' Hqa'. congruence. }
  assert (∀ band, shape qa ≠ shape band →
                  ∀ current,
                    modify_band bands "rescaling" percentile clip_limit current band
                    = Raise (IndexError (inconsistent_shape (shape qa) (shape band))))
    as Hdiff.
  { intros band Hs current.
    rewrite modify_band_rescaling, (masked_band_of_qa_mismatch _ _ _ _ _ Hqa Sqa);
      [by rewrite Sqa | congruence]. }
  right. split; [done|]. exists qa.
  unfold create_rgb_stack.
  rewrite (getitem_Some _ _ _ Hr), (getitem_Some _ _ _ Hg), (getitem_Some _ _ _ Hb).
  cbn [mbind result_bind for_loop]. unfold loop_body.
  destruct (decide (shape qa = shape red)) as [Er|Nr].
  2:{ exists red. split; [done|]. split; [apply elem_of_cons; by left|].
      split; [done|]. by rewrite (Hdiff red Nr). }
  destruct (Hsame red Dr Er) as (r & ->). cbn [mbind result_bind modified_band modified_bands].
  destruct (decide (shape qa = shape green)) as [Eg|Ng].
  2:{ exists green. split; [done|].
      split; [apply elem_of_cons; right; apply elem_of_cons; by left|].
      split; [done|]. by rewrite (Hdiff green Ng). }
  destruct (Hsame green Dg Eg) as (g & ->). cbn [mbind result_bind modified_band modified_bands].
  destruct (decide (shape qa = shape blue)) as [Eb|Nb].
  { exfalso. apply Hne. split; congruence. }
  exists blue. split; [done|].
  split; [do 2 (apply elem_of_cons; right); apply elem_of_cons; by left|].
  split; [done|]. by rewrite (Hdiff blue Nb).
Qed.

(** C7, as the code behaves: when two of the three bands differ in shape
    (method recognized, percentile in [0, 100], every band with a sample,
    the equalizer keeping the shape of its input) the call fails and
    returns no array. Either [np.stack] raises ValueError with a fixed text that
    names no shape, after the three bands were normalized; or, on the
    'rescaling' path with a 'qa' band, [masked_where] has raised IndexError
    for a band whose shape is not that of 'qa', naming both shapes. *)
Theorem create_rgb_stack_shape_mismatch bands method percentile clip_limit
    red green blue :
  bands !! "red" = Some red →
  bands !! "green" = Some green →
  bands !! "blue" = Some blue →
  method = "clahe" ∨ (method = "rescaling" ∧ (0 <= percentile <= 100)%Q) →
  data red ≠ [] → data green ≠ [] → data blue ≠ [] →
  (∀ qa, bands !! "qa" = Some qa → data qa ≠ []) →
  ¬ (shape red = shape green ∧ shape green = shape blue) →
  (create_rgb_stack bands method percentile clip_limit
   = Raise (ValueError "all input arrays must have the same shape") ∧
   ∀ sh, mentions "all input arrays must have the same shape" (repr_shape sh) = false)
  ∨ (method = "rescaling" ∧
     ∃ qa band,
       bands !! "qa" = Some qa ∧ band ∈ [red; green; blue] ∧
       shape qa ≠ shape band ∧
       create_rgb_stack bands method percentile clip_limit
       = Raise (IndexError (inconsistent_shape (shape qa) (shape band))) ∧
       fails_reporting_shapes
         (create_rgb_stack bands method percentile clip_limit)
         [shape qa; shape band]).
Proof.
  intros Hr Hg Hb Hm Dr Dg Db Dqa Hne.
  destruct (shape_mismatch_cases bands method percentile clip_limit
              red green blue Hr Hg Hb Hm Dr Dg Db Dqa Hne)
    as [Hstack | (Hmeth & qa & band & Hqa & Hin & Hs & Hraise)].
  - left. split; [exact Hstack | apply stack_error_names_no_shape].
  - right. split; [exact Hmeth|]. exists qa, band.
    repeat (split; [done|]).
    eexists. split; [exact Hraise|].
    destruct (inconsistent_shape_names_shapes (shape qa) (shape band)).
    by repeat constructor.
Qed.

End EqualizerContract.

(** ** Properties of [write_rgb_image] *)

Lemma write_band_frame path bidx band w :
  heap (write_band path bidx band w).2 = heap w ∧
  ∀ ds, files w !! path = Some ds →
        ∃ ds', files (write_band path bidx band w).2 !! path = Some ds' ∧
               ds_profile ds' = ds_profile ds.
Proof.
  unfold write_band.
  destruct (files w !! path) as [ds0|] eqn:E; [|by split].
  assert (∀ ds, Some ds0 = Some ds →
                ∃ ds', files w !! path = Some ds' ∧ ds_profile ds' = ds_profile ds)
    as Hsame by (intros ds [= <-]; eauto).
  destruct (ds_profile ds0 !! "count") as [[s|count|n]|]; [by split| |by split|by split].
  destruct ((1 <=? bidx) && (bidx <=? count)); cbn [snd heap files]; [|by split].
  split; [done|]. intros ds [= <-]. rewrite lookup_insert_eq. eauto.
Qed.

Lemma write_bands_frame path items : ∀ i w,
  heap (write_bands path i items w).2 = heap w ∧
  ∀ ds, files w !! path = Some ds →
        ∃ ds', files (write_bands path i items w).2 !! path = Some ds' ∧
               ds_profile ds' = ds_profile ds.
Proof.
  induction items as [|band rest IH]; intros i w; cbn [write_bands].
  - split; [done|]. eauto.
  - destruct (write_band_frame path (i + 1) band w) as [Hh Hf].
    destruct (write_band path (i + 1) band w) as [[[]|e] w'] eqn:E; cbn [snd] in *.
    + destruct (IH (i + 1) w') as [Hh' Hf']. split; [congruence|].
      intros ds Hds. destruct (Hf ds Hds) as (ds1 & Hds1 & Hp1).
      destruct (Hf' ds1 Hds1) as (ds2 & Hds2 & Hp2).
      exists ds2. split; [done|]. congruence.
    + split; [done|]. exact Hf.
Qed.

(** What [write_rgb_image] does up to and including the open, when the dict
    refers to a profile object. *)
Lemma write_rgb_image_opens bands data_path w profile p :
  bands !! "profile" = Some (PProfile profile) →
  heap w !! profile = Some p →
  let path := os_path_join data_path "rgb.tif" in
  let w1 := {| heap := alter profile_update profile (heap w);
               files := files w; open_error := open_error w |} in
  let w2 := {| heap := alter profile_update profile (heap w);
               files := <[path := {| ds_profile := profile_update p;
                                     ds_bands := ∅ |}]> (files w);
               open_error := open_error w |} in
  write_rgb_image bands data_path w =
  match open_error w path (profile_update p) with
  | Some e => (Raise e, w1)
  | None =>
      match getitem bands "rgb" with
      | Raise e => (Raise e, w2)
      | Return (PProfile _) => (Raise (TypeError "band is not an array"), w2)
      | Return (PArray rgb) =>
          match iter_first_axis rgb with
          | Raise e => (Raise e, w2)
          | Return items => write_bands path 0 items w2
          end
      end
  end.
Proof.
  intros Hb Hp path w1 w2. unfold write_rgb_image.
  rewrite (getitem_Some _ _ _ Hb). cbn zeta. fold path.
  unfold rasterio_open_w. cbn [heap files open_error].
  rewrite lookup_alter_eq, Hp. cbn [fmap option_fmap option_map default].
  change (id (profile_update p)) with (profile_update p).
  by destruct (open_error w path (profile_update p)).
Qed.

(** C2, as the code behaves: the profile object of the caller is updated in
    place, before the file is opened and whether or not the open returns.
    After the call the object holds driver 'GTiff', dtype 'uint8', count 3
    and photometric 'RGB', its other keys are as before, and no other
    profile object is touched. When [rasterio.open] returns, the file is
    created with exactly this updated mapping; when it raises, the call
    raises what it raised. *)
Theorem write_rgb_image_updates_profile_in_place bands data_path w profile p :
  bands !! "profile" = Some (PProfile profile) →
  heap w !! profile = Some p →
  let w' := (write_rgb_image bands data_path w).2 in
  heap w' !! profile = Some (profile_update p) ∧
  (open_error w (os_path_join data_path "rgb.tif") (profile_update p) = None →
   ∃ ds, files w' !! os_path_join data_path "rgb.tif" = Some ds ∧
         ds_profile ds = profile_update p) ∧
  (∀ e, open_error w (os_path_join data_path "rgb.tif") (profile_update p) = Some e →
        (write_rgb_image bands data_path w).1 = Raise e) ∧
  profile_update p !! "driver" = Some (MStr "GTiff") ∧
  profile_update p !! "dtype" = Some (MStr "uint8") ∧
  profile_update p !! "count" = Some (MInt 3) ∧
  profile_update p !! "photometric" = Some (MStr "RGB") ∧
  (∀ k, k ≠ "driver" → k ≠ "dtype" → k ≠ "count" → k ≠ "photometric" →
        profile_update p !! k = p !! k) ∧
  (∀ l, l ≠ profile → heap w' !! l = heap w !! l).
Proof.
  intros Hb Hp w'.
  set (path := os_path_join data_path "rgb.tif").
  assert (heap w' = alter profile_update profile (heap w) ∧
          (open_error w path (profile_update p) = None →
           ∃ ds, files w' !! path = Some ds ∧ ds_profile ds = profile_update p) ∧
          (∀ e, open_error w path (profile_update p) = Some e →
                (write_rgb_image bands data_path w).1 = Raise e))
    as (Hheap & Hfile & Hfail).
  { subst w'. rewrite (write_rgb_image_opens _ _ _ _ _ Hb Hp). cbn zeta. fold path.
    destruct (open_error w path (profile_update p)) as [e|];
      [split; [done|]; split; [done|]; by intros e' [= <-]|].
    set (w2 := {| heap := _; files := _; open_error := _ |}).
    assert (files w2 !! path
            = Some {| ds_profile := profile_update p; ds_bands := ∅ |}) as Hf2
      by apply lookup_insert_eq.
    assert (∀ r : result unit * world,
              heap r.2 = heap w2 →
              (∃ ds, files r.2 !! path = Some ds ∧ ds_profile ds = profile_update p) →
              heap r.2 = alter profile_update profile (heap w) ∧
              (@None exn = None →
               ∃ ds, files r.2 !! path = Some ds ∧ ds_profile ds = profile_update p) ∧
              (∀ e, @None exn = Some e → r.1 = Raise e)) as Hdone
      by (intros r Hh Hf; split; [done|]; split; [done|]; by intros e).
    destruct (getitem bands "rgb") as [[rgb|l]|e]; try (apply Hdone; [done|]; eauto).
    destruct (iter_first_axis rgb) as [items|e]; try (apply Hdone; [done|]; eauto).
    destruct (write_bands_frame path items 0 w2) as [Hh Hf].
    apply Hdone; [done|]. destruct (Hf _ Hf2) as (ds' & Hds' & Hp'). eauto. }
  split; [by rewrite Hheap, lookup_alter_eq, Hp|].
  split; [done|]. split; [done|].
  unfold profile_update.
  split; [by rewrite !lookup_insert_ne, lookup_insert_eq by done|].
  split; [by rewrite !lookup_insert_ne, lookup_insert_eq by done|].
  split; [by rewrite !lookup_insert_ne, lookup_insert_eq by done|].
  split; [by rewrite lookup_insert_eq|].
  split.
  - intros k H1 H2 H3 H4. by rewrite !lookup_insert_ne by done.
  - intros l Hl. rewrite Hheap. by apply lookup_alter_ne.
Qed.

(** ** The properties on concrete inputs *)

Lemma dtype_rescaler_shape image clip_limit :
  fshape (dtype_rescaler image clip_limit) = shape image ∧
  length (fdata (dtype_rescaler image clip_limit)) = length (data image).
Proof.
  unfold dtype_rescaler. destruct (dtype_range (dtype image)) as [lo hi].
  cbn [fshape fdata]. by rewrite length_map.
Qed.



(** C1, as the spec states it, fails: with method 'bogus' the scenario bands
    make the call raise UnboundLocalError, which is no configuration error. *)
Lemma bogus_method_is_no_configuration_error :
  create_rgb_stack scenario_bands "bogus" 2 (3 # 100)
  = Raise (UnboundLocalError "modified_band") ∧
  ¬ fails_with_configuration_error
      (create_rgb_stack scenario_bands "bogus" 2 (3 # 100)).
Proof.
  split; [vm_compute; reflexivity|].
  intros (e & He & Hc). vm_compute in He. injection He as <-. discriminate Hc.
Qed.

Lemma create_rgb_stack_unknown_method_witness :
  create_rgb_stack scenario_bands "bogus" 2 (3 # 100)
  = Raise (UnboundLocalError "modified_band").
Proof.
  apply (create_rgb_stack_unknown_method scenario_bands "bogus" 2 (3 # 100)
           scenario_band scenario_band scenario_band);
    [reflexivity | reflexivity | reflexivity | discriminate | discriminate].
Defined.

(** C2, as the spec states it, fails: after the write the profile object the
    caller's dict refers to is no longer what it was (its dtype was 'uint16'
    and its count 1, they are 'uint8' and 3). *)
Lemma write_rgb_image_changes_caller_profile :
  let w' := (write_rgb_image scene_bands "data" scene_world).2 in
  heap scene_world !! 1%positive = Some scene_profile ∧
  heap w' !! 1%positive ≠ heap scene_world !! 1%positive ∧
  (heap w' !! 1%positive) ≫= (λ p, p !! "count") = Some (MInt 3) ∧
  (heap scene_world !! 1%positive) ≫= (λ p, p !! "count") = Some (MInt 1).
Proof.
  split; [reflexivity|]. split; [|split; vm_compute; reflexivity].
  intros Heq.
  apply (f_equal (λ o : option (gmap string meta), o ≫= (λ p, p !! "count"))) in Heq.
  vm_compute in Heq. discriminate Heq.
Qed.

Lemma write_rgb_image_updates_profile_in_place_witness :
  let w' := (write_rgb_image scene_bands "data" scene_world).2 in
  heap w' !! 1%positive = Some (profile_update scene_profile) ∧
  ∃ ds, files w' !! "data/rgb.tif" = Some ds ∧
        ds_profile ds = profile_update scene_profile.
Proof.
  destruct (write_rgb_image_updates_profile_in_place
              scene_bands "data" scene_world 1%positive scene_profile)
    as (Hheap & Hfile & _); [reflexivity | reflexivity |].
  split; [exact Hheap | apply Hfile; reflexivity].
Defined.

Lemma create_rgb_stack_normalized_witness :
  ∃ r g b,
    normalized_band scenario_band r ∧ normalized_band scenario_band g ∧
    normalized_band scenario_band b ∧
    create_rgb_stack scenario_bands_qa "rescaling" 2 (3 # 100)
    = Return {| dtype := uint8; shape := [3; 2; 2]%nat;
                data := data r ++ data g ++ data b |}.
Proof.
  destruct (create_rgb_stack_normalized (env := reference_environment) dtype_rescaler_shape
              scenario_bands_qa "rescaling" 2 (3 # 100)
              scenario_band scenario_band scenario_band 2 2)
    as (r & g & b & _ & _ & _ & Nr & Ng & Nb & Hstack);
    [reflexivity | reflexivity | reflexivity | reflexivity | reflexivity | reflexivity
    | discriminate | discriminate | discriminate | |].
  - right. split; [reflexivity|]. split; [split; discriminate|].
    intros qa Hqa. vm_compute in Hqa. injection Hqa as <-.
    split; [reflexivity | discriminate].
  - exists r, g, b. auto.
Defined.

Lemma rescaling_cut_points_skip_fill_pixels_witness :
  modify_band scenario_bands_qa "rescaling" 2 (3 # 100) None scenario_band
  = ('(vmin, vmax) ← cut_points [0; 0; 100] 2;
     Return (Some (astype uint8 (rescale_intensity scenario_band (vmin, vmax) uint8)))).
Proof.
  apply (rescaling_cut_points_skip_fill_pixels scenario_bands_qa scenario_qa
           scenario_band 2 (3 # 100) None 2 2); [reflexivity..|discriminate].
Defined.


(** C7, as the spec states it, fails: for bands of shapes (2, 2), (1, 2) and
    (2, 2) the error raised is the fixed text of [np.stack], which shows
    neither shape. *)
Lemma shape_mismatch_error_names_no_shape :
  create_rgb_stack mismatched_bands "rescaling" 2 (3 # 100)
  = Raise (ValueError "all input arrays must have the same shape") ∧
  ¬ fails_reporting_shapes
      (create_rgb_stack mismatched_bands "rescaling" 2 (3 # 100))
      [[2; 2]%nat; [1; 2]%nat].
Proof.
  split; [vm_compute; reflexivity|].
  intros (e & He & Hall). vm_compute in He. injection He as <-.
  apply Forall_cons in Hall as [Hm _]. vm_compute in Hm. discriminate Hm.
Qed.

Lemma create_rgb_stack_shape_mismatch_witness :
  create_rgb_stack mismatched_bands "rescaling" 2 (3 # 100)
  = Raise (ValueError "all input arrays must have the same shape").
Proof.
  destruct (create_rgb_stack_shape_mismatch (env := reference_environment)
              dtype_rescaler_shape
              mismatched_bands "rescaling" 2 (3 # 100)
              scenario_band
              {| dtype := int64; shape := [1%nat; 2%nat]; data := [5; 7] |}
              scenario_band)
    as [[Hstack _] | (_ & qa & _ & Hqa & _)];
    [reflexivity | reflexivity | reflexivity | | discriminate | discriminate
    | discriminate | | | exact Hstack | discriminate Hqa].
  - right. split; [reflexivity|]. split; discriminate.
  - intros qa Hqa. discriminate Hqa.
  - intros [E _]. discriminate E.
Defined.


Lemma scenario_rescaling_keeps_order_witness :
  ∃ out r0 r100 r200,
    modify_band scenario_bands "rescaling" 2 (3 # 100) None scenario_band
    = Return (Some out) ∧
    data out = [r0; r0; r100; r200] ∧ r0 < r100 < r200.
Proof.
  destruct (scenario_rescaling_keeps_order scenario_bands (3 # 100) None)
    as (vmin & vmax & out & r0 & r100 & r200 & _ & _ & _ & Hout & _ & _ & Hdata & Hord & _);
    [reflexivity|].
  exists out, r0, r100, r200. auto.
Defined.

Lemma fill_mask_is_qa_equal_1_witness :
  ∃ masked,
    masked_band_of scenario_bands_qa scenario_band = Return (FloatArr masked) ∧
    fdata masked !! 3%nat = Some NaN ∧
    fdata masked !! 2%nat = Some (Num (inject_Z 100)).
Proof.
  destruct (fill_mask_is_qa_equal_1 scenario_bands_qa scenario_band 2 2 eq_refl)
    as [Hqa _].
  destruct (Hqa scenario_qa eq_refl eq_refl) as (masked & Hm & _ & Hpix).
  exists masked. split; [exact Hm|]. split.
  - exact (Hpix 3%nat 1 200 eq_refl eq_refl).
  - exact (Hpix 2%nat 0 100 eq_refl eq_refl).
Defined.

Lemma create_rgb_stack_missing_red_witness :
  create_rgb_stack (delete "red" scenario_bands) "rescaling" 2 (3 # 100)
  = Raise (KeyError "red").
Proof.
  apply (create_rgb_stack_missing_red (delete "red" scenario_bands)
           "rescaling" 2 (3 # 100)).
  reflexivity.
Defined.



(** ** More on the 'rescaling' path *)







Section RescalingFacts.

Context {env : Environment}.






Lemma masked_band_of_ext (bands bands' : gmap string ndarray) band :
  bands !! "qa" = bands' !! "qa" →
  masked_band_of bands band = masked_band_of bands' band.
Proof. unfold masked_band_of, getitem. by intros ->. Qed.

Lemma loop_body_ext (bands bands' : gmap string ndarray) method p c st band :
  bands !! "qa" = bands' !! "qa" →
  loop_body bands method p c st band = loop_body bands' method p c st band.
Proof.
  intros Hqa. unfold loop_body, modify_band.
  by rewrite (masked_band_of_ext bands bands' band Hqa).
Qed.

Lemma for_loop_ext (bands bands' : gmap string ndarray) method p c items : ∀ st,
  bands !! "qa" = bands' !! "qa" →
  for_loop bands method p c st items = for_loop bands' method p c st items.
Proof.
  induction items as [|band rest IH]; intros st Hqa; [done|].
  cbn [for_loop]. rewrite (loop_body_ext bands bands') by done.
  destruct (loop_body bands' method p c st band) as [st'|e]; [|done].
  cbn [mbind result_bind]. by apply IH.
Qed.

(** X8: [create_rgb_stack] reads its mapping under 'red', 'green', 'blue'
    and 'qa' only: two mappings that agree on these four keys give the same
    result, whatever else they hold. *)
Theorem create_rgb_stack_reads_four_keys (bands bands' : gmap string ndarray)
    method percentile clip_limit :
  (∀ k, k ∈ ["red"; "green"; "blue"; "qa"] → bands !! k = bands' !! k) →
  create_rgb_stack bands method percentile clip_limit
  = create_rgb_stack bands' method percentile clip_limit.
Proof.
  intros Hagree. unfold create_rgb_stack, getitem.
  rewrite <- (Hagree "red"), <- (Hagree "green"), <- (Hagree "blue")
    by (repeat (apply elem_of_cons; (by left) || right)).
  destruct (bands !! "red") as [red|]; [|done].
  destruct (bands !! "green") as [green|]; [|done].
  destruct (bands !! "blue") as [blue|]; [|done].
  cbn [mbind result_bind].
  rewrite (for_loop_ext bands bands'); [done|].
  apply Hagree. repeat (apply elem_of_cons; (by left) || right).
Qed.

Lemma unmasked_pixels_all_fill (qa band : list Z) :
  Forall (λ q, q = 1) qa → unmasked_pixels qa band = [].
Proof.
  intros Hall. revert band. induction Hall as [|q qa -> _ IH]; intros [|x band]; try done.
  cbn [unmasked_pixels]. apply IH.
Qed.

(** X9: when the 'qa' band flags every pixel of a band that has pixels as
    fill, no sample is left for the percentiles: both cut points are NaN,
    nothing is raised, and all output pixels of the band carry one and the
    same uint8 value. *)
Theorem all_fill_pixels_single_value bands qa band p c current (h w : nat) :
  bands !! "qa" = Some qa →
  shape band = [h; w] → shape qa = [h; w] →
  data band ≠ [] → length (data qa) = length (data band) →
  Forall (λ q, q = 1) (data qa) →
  (0 <= p <= 100)%Q →
  ∃ masked_band out v,
    masked_band_of bands band = Return masked_band ∧
    nanpercentile masked_band (p, (100 - p)%Q) = Return (NaN, NaN) ∧
    modify_band bands "rescaling" p c current band = Return (Some out) ∧
    dtype out = uint8 ∧ length (data out) = length (data band) ∧
    0 <= v <= 255 ∧ Forall (λ o, o = v) (data out).
Proof.
  intros Hqa Hb Hs Hne Hlen Hall Hp.
  pose proof (masked_band_of_qa _ _ _ _ _ Hqa Hb Hs) as Hmb.
  set (masked := FloatArr _) in Hmb.
  assert (nanpercentile masked (p, (100 - p)%Q) = Return (NaN, NaN)) as Hcut.
  { subst masked. unfold nanpercentile. cbn [fst snd array_values fdata].
    rewrite (quantile_is_valid_percent p Hp).
    rewrite remove_nan_filled, unmasked_pixels_all_fill by done. cbn [map].
    destruct (zip_with _ _ _) eqn:E; [|done].
    apply (f_equal length) in E. rewrite length_zip_with, length_map in E.
    destruct (data band); [done|]. cbn [length] in *. lia. }
  exists masked, (astype uint8 (rescale_intensity band (NaN, NaN) uint8)),
         (cast_int uint8 (invalid_cast (dtype band))).
  split; [done|]. split; [done|]. split.
  { rewrite modify_band_rescaling, Hmb. cbn [mbind result_bind]. by rewrite Hcut. }
  split; [done|].
  unfold astype, rescale_intensity. cbn [float_leb equal_range].
  rewrite intensity_range_uint8.
  cbn [data]. rewrite !length_map. split; [done|].
  split; [apply cast_int_uint8_range|].
  rewrite !map_map. apply Forall_fmap, Forall_forall. intros z _. unfold compose.
  cbn. apply cast_uint8_cast_int.
Qed.


Lemma masked_band_of_empty bands band masked_band :
  masked_band_of bands band = Return masked_band →
  data band = [] →
  array_values masked_band = [].
Proof.
  unfold masked_band_of, getitem. intros Hmb Hband.
  destruct (bands !! "qa") as [qa|].
  2:{ cbn in Hmb. injection Hmb as <-. cbn [array_values]. by rewrite Hband. }
  cbn [mbind result_bind] in Hmb. unfold masked_where, np_equal_scalar in Hmb.
  destruct (shape qa) as [|n rest].
  - cbn in Hmb. injection Hmb as <-.
    cbn [array_values ma_filled_float fdata ma_mask ma_data]. by rewrite Hband.
  - destruct (decide (n :: rest = shape band)); cbn in Hmb; [|done].
    injection Hmb as <-. cbn [array_values ma_filled_float fdata ma_mask ma_data].
    rewrite Hband. by destruct (map _ (data qa)).
Qed.

(** X27: a red band without pixels makes the 'rescaling' path fail with
    TypeError, whatever the other bands hold: [np.nanpercentile] returns a
    single NaN for an array without elements, and the assignment of it to
    [vmin, vmax] cannot unpack it. A 'qa' band, if there is one, has the
    shape of the red band, so the mask raises nothing before. *)
Theorem empty_band_fails_at_the_cut_points bands red green blue p c :
  bands !! "red" = Some red →
  bands !! "green" = Some green →
  bands !! "blue" = Some blue →
  data red = [] →
  (0 <= p <= 100)%Q →
  (∀ qa, bands !! "qa" = Some qa → shape qa = shape red) →
  ∃ msg, create_rgb_stack bands "rescaling" p c = Raise (TypeError msg).
Proof.
  intros Hr Hg Hb Hempty Hp Hqa.
  destruct (masked_band_of_compatible bands red Hqa) as (masked & Hmb).
  pose proof (masked_band_of_empty _ _ _ Hmb Hempty) as Hvalues.
  unfold create_rgb_stack.
  rewrite (getitem_Some _ _ _ Hr), (getitem_Some _ _ _ Hg), (getitem_Some _ _ _ Hb).
  cbn [mbind result_bind for_loop]. unfold loop_body.
  rewrite modify_band_rescaling, Hmb. cbn [mbind result_bind].
  unfold nanpercentile. cbn [fst snd].
  rewrite (quantile_is_valid_percent p Hp), Hvalues. cbn [mbind result_bind].
  by eexists.
Qed.

End RescalingFacts.

(** ** More on [write_rgb_image] *)

Lemma world_eta w :
  {| heap := heap w; files := files w; open_error := open_error w |} = w.
Proof. by destruct w. Qed.

Lemma dataset_eta ds : {| ds_profile := ds_profile ds; ds_bands := ds_bands ds |} = ds.
Proof. by destruct ds. Qed.

Lemma put_bands_lookup items : ∀ i written j,
  put_bands i items written !! j =
  if decide (i < j ≤ i + Z.of_nat (length items))
  then items !! Z.to_nat (j - i - 1)
  else written !! j.
Proof.
  induction items as [|band rest IH]; intros i written j; cbn [put_bands length].
  - destruct (decide _) as [H|H]; [lia|done].
  - rewrite IH.
    destruct (decide (i + 1 < j ≤ i + 1 + Z.of_nat (length rest))) as [H|H].
    + rewrite decide_True by lia.
      replace (Z.to_nat (j - i - 1)) with (S (Z.to_nat (j - (i + 1) - 1))) by lia.
      done.
    + destruct (decide (j = i + 1)) as [->|Hne].
      * rewrite lookup_insert_eq, decide_True by lia.
        by replace (Z.to_nat (i + 1 - i - 1)) with O by lia.
      * rewrite lookup_insert_ne by done. by rewrite decide_False by lia.
Qed.

Lemma profile_update_count p : profile_update p !! "count" = Some (MInt 3).
Proof. unfold profile_update. by rewrite lookup_insert_ne, lookup_insert_eq. Qed.

(** The loop of [write_rgb_image] while the indexes stay within the count. *)
Lemma write_bands_within path items : ∀ i w ds count,
  files w !! path = Some ds →
  ds_profile ds !! "count" = Some (MInt count) →
  0 ≤ i → i + Z.of_nat (length items) ≤ count →
  write_bands path i items w =
  (Return (),
   {| heap := heap w;
      files := <[path := {| ds_profile := ds_profile ds;
                            ds_bands := put_bands i items (ds_bands ds) |}]>
                 (files w);
      open_error := open_error w |}).
Proof.
  induction items as [|band rest IH]; intros i w ds count Hds Hcount Hi Hlen;
    cbn [write_bands put_bands length] in *.
  - by rewrite dataset_eta, insert_id, world_eta.
  - unfold write_band. rewrite Hds, Hcount.
    replace ((1 <=? i + 1) && (i + 1 <=? count)) with true
      by (symmetry; apply andb_true_iff; split; apply Z.leb_le; lia).
    erewrite IH; cbn [heap files open_error ds_profile ds_bands];
      [|apply lookup_insert_eq|exact Hcount|lia|lia].
    by rewrite insert_insert_eq.
Qed.

(** The loop when the items outnumber the count: it stops at the first
    index beyond it. *)
Lemma write_bands_beyond path items : ∀ i w ds count,
  files w !! path = Some ds →
  ds_profile ds !! "count" = Some (MInt count) →
  0 ≤ i ≤ count → count < i + Z.of_nat (length items) →
  write_bands path i items w =
  (Raise (IndexError (band_index_error (count + 1) count)),
   {| heap := heap w;
      files := <[path := {| ds_profile := ds_profile ds;
                            ds_bands := put_bands i (take (Z.to_nat (count - i)) items)
                                                  (ds_bands ds) |}]>
                 (files w);
      open_error := open_error w |}).
Proof.
  induction items as [|band rest IH]; intros i w ds count Hds Hcount Hi Hlen;
    cbn [write_bands length] in *; [lia|].
  unfold write_band. rewrite Hds, Hcount.
  destruct (decide (i + 1 ≤ count)) as [Hin|Hout].
  - replace ((1 <=? i + 1) && (i + 1 <=? count)) with true
      by (symmetry; apply andb_true_iff; split; apply Z.leb_le; lia).
    erewrite IH; cbn [heap files open_error ds_profile ds_bands];
      [|apply lookup_insert_eq|exact Hcount|lia|lia].
    rewrite insert_insert_eq.
    replace (Z.to_nat (count - i)) with (S (Z.to_nat (count - (i + 1)))) by lia.
    done.
  - replace ((1 <=? i + 1) && (i + 1 <=? count)) with false
      by (symmetry; apply andb_false_iff; right; apply Z.leb_gt; lia).
    replace (Z.to_nat (count - i)) with O by lia.
    replace (i + 1) with (count + 1) by lia.
    cbn [take put_bands]. by rewrite dataset_eta, insert_id, world_eta.
Qed.

(** X10 (write_rgb_image): when [rasterio.open] returns, with at most three
    sub-arrays along the first axis of [bands['rgb']], uint8 arrays of the
    height and width of the profile, the call succeeds and the file holds
    exactly these sub-arrays, the i-th at band index i + 1, under the
    updated profile: a stack of fewer than three is accepted, and leaves a
    file that declares three bands with fewer written. *)
Theorem write_rgb_image_writes_channels bands data_path w l p rgb items
    (h wd : nat) :
  bands !! "profile" = Some (PProfile l) →
  heap w !! l = Some p →
  p !! "height" = Some (MInt (Z.of_nat h)) →
  p !! "width" = Some (MInt (Z.of_nat wd)) →
  open_error w (os_path_join data_path "rgb.tif") (profile_update p) = None →
  bands !! "rgb" = Some (PArray rgb) →
  iter_first_axis rgb = Return items →
  Forall (λ a, dtype a = uint8 ∧ shape a = [h; wd]) items →
  (length items ≤ 3)%nat →
  ∃ w' ds,
    write_rgb_image bands data_path w = (Return (), w') ∧
    files w' !! os_path_join data_path "rgb.tif" = Some ds ∧
    ds_profile ds = profile_update p ∧
    ∀ j, ds_bands ds !! j =
         if decide (1 ≤ j ≤ Z.of_nat (length items))
         then items !! Z.to_nat (j - 1)
         else None.
Proof.
  intros Hprofile Hp _ _ Hopen Hrgb Hitems _ Hlen.
  rewrite (write_rgb_image_opens _ _ _ _ _ Hprofile Hp). cbn zeta.
  rewrite Hopen, (getitem_Some _ _ _ Hrgb), Hitems.
  erewrite write_bands_within; cbn [heap files ds_profile ds_bands];
    [|apply lookup_insert_eq|apply profile_update_count|lia|lia].
  eexists _, _. split; [reflexivity|]. cbn [files].
  split; [apply lookup_insert_eq|]. cbn [ds_profile ds_bands].
  split; [done|]. intros j. rewrite put_bands_lookup, lookup_empty.
  destruct (decide (1 ≤ j ≤ Z.of_nat (length items))) as [H|H].
  - rewrite decide_True by lia. by replace (j - 0 - 1) with (j - 1) by lia.
  - by rewrite decide_False by lia.
Qed.

(** X11 (write_rgb_image): when [rasterio.open] returns, with more than
    three sub-arrays along the first axis, uint8 arrays of the height and
    width of the profile, the call raises IndexError at the fourth, after
    the first three were written: the file is left with these three
    bands. *)
Theorem write_rgb_image_too_many_channels bands data_path w l p rgb items
    (h wd : nat) :
  bands !! "profile" = Some (PProfile l) →
  heap w !! l = Some p →
  p !! "height" = Some (MInt (Z.of_nat h)) →
  p !! "width" = Some (MInt (Z.of_nat wd)) →
  open_error w (os_path_join data_path "rgb.tif") (profile_update p) = None →
  bands !! "rgb" = Some (PArray rgb) →
  iter_first_axis rgb = Return items →
  Forall (λ a, dtype a = uint8 ∧ shape a = [h; wd]) items →
  (3 < length items)%nat →
  ∃ msg w' ds,
    write_rgb_image bands data_path w = (Raise (IndexError msg), w') ∧
    files w' !! os_path_join data_path "rgb.tif" = Some ds ∧
    ds_profile ds = profile_update p ∧
    ∀ j, ds_bands ds !! j =
         if decide (1 ≤ j ≤ 3) then items !! Z.to_nat (j - 1) else None.
Proof.
  intros Hprofile Hp _ _ Hopen Hrgb Hitems _ Hlen.
  rewrite (write_rgb_image_opens _ _ _ _ _ Hprofile Hp). cbn zeta.
  rewrite Hopen, (getitem_Some _ _ _ Hrgb), Hitems.
  erewrite write_bands_beyond; cbn [heap files ds_profile ds_bands];
    [|apply lookup_insert_eq|apply profile_update_count|lia|lia].
  eexists _, _, _. split; [reflexivity|]. cbn [files].
  split; [apply lookup_insert_eq|]. cbn [ds_profile ds_bands].
  split; [done|]. intros j. rewrite put_bands_lookup, lookup_empty.
  rewrite length_take. change (Z.to_nat (3 - 0)) with 3%nat.
  destruct (decide (1 ≤ j ≤ 3)) as [H|H].
  - rewrite decide_True by lia. replace (j - 0 - 1) with (j - 1) by lia.
    apply lookup_take_lt. lia.
  - by rewrite decide_False by lia.
Qed.

(** X12 (write_rgb_image): without an entry 'rgb' the call raises
    KeyError('rgb'), but, when [rasterio.open] returns, only after the
    profile object was updated and the file opened for writing: an image
    that was at that path is replaced by one without bands. *)
Theorem write_rgb_image_missing_rgb bands data_path w l p :
  bands !! "profile" = Some (PProfile l) →
  heap w !! l = Some p →
  open_error w (os_path_join data_path "rgb.tif") (profile_update p) = None →
  bands !! "rgb" = None →
  ∃ w',
    write_rgb_image bands data_path w = (Raise (KeyError "rgb"), w') ∧
    heap w' !! l = Some (profile_update p) ∧
    files w' !! os_path_join data_path "rgb.tif"
    = Some {| ds_profile := profile_update p; ds_bands := ∅ |}.
Proof.
  intros Hprofile Hp Hopen Hrgb.
  rewrite (write_rgb_image_opens _ _ _ _ _ Hprofile Hp). cbn zeta.
  rewrite Hopen, (getitem_None _ _ Hrgb).
  eexists. split; [reflexivity|]. cbn [heap files].
  split; [by rewrite lookup_alter_eq, Hp|apply lookup_insert_eq].
Qed.

Lemma profile_update_idemp p : profile_update (profile_update p) = profile_update p.
Proof.
  apply map_eq. intros k. unfold profile_update.
  rewrite !lookup_insert. by repeat case_decide.
Qed.

Lemma alter_profile_update_idemp (h : gmap loc (gmap string meta)) l :
  alter profile_update l (alter profile_update l h) = alter profile_update l h.
Proof.
  apply map_eq. intros k. destruct (decide (k = l)) as [->|Hne].
  - rewrite !lookup_alter_eq. destruct (h !! l); cbn; [|done].
    by rewrite profile_update_idemp.
  - by rewrite !lookup_alter_ne.
Qed.

Lemma write_band_files path bidx band w ds :
  <[path := ds]> (files (write_band path bidx band w).2) = <[path := ds]> (files w).
Proof.
  unfold write_band. destruct (files w !! path) as [ds0|]; [|done].
  destruct (ds_profile ds0 !! "count") as [[s|count|n]|]; try done.
  destruct ((1 <=? bidx) && (bidx <=? count)); cbn [snd files]; [|done].
  apply insert_insert_eq.
Qed.

Lemma write_bands_files path items ds : ∀ i w,
  <[path := ds]> (files (write_bands path i items w).2) = <[path := ds]> (files w).
Proof.
  induction items as [|band rest IH]; intros i w; cbn [write_bands]; [done|].
  pose proof (write_band_files path (i + 1) band w ds) as Hstep.
  destruct (write_band path (i + 1) band w) as [[[]|e] w'];
    cbn [snd] in *; [by rewrite IH|done].
Qed.

Lemma write_band_open path bidx band w :
  open_error (write_band path bidx band w).2 = open_error w.
Proof.
  unfold write_band. destruct (files w !! path) as [ds0|]; [|done].
  destruct (ds_profile ds0 !! "count") as [[s|count|n]|]; try done.
  by destruct ((1 <=? bidx) && (bidx <=? count)).
Qed.

Lemma write_bands_open path items : ∀ i w,
  open_error (write_bands path i items w).2 = open_error w.
Proof.
  induction items as [|band rest IH]; intros i w; cbn [write_bands]; [done|].
  pose proof (write_band_open path (i + 1) band w) as Hstep.
  destruct (write_band path (i + 1) band w) as [[[]|e] w'];
    cbn [snd] in *; [by rewrite IH|done].
Qed.

(** X13 (write_rgb_image): calling it a second time with the same arguments
    ends as the first call did and leaves everything as the first call left
    it, whatever the first call met. *)
Theorem write_rgb_image_twice bands data_path w :
  write_rgb_image bands data_path (write_rgb_image bands data_path w).2
  = write_rgb_image bands data_path w.
Proof.
  unfold write_rgb_image at 2 3.
  destruct (getitem bands "profile") as [[a|l]|e] eqn:Hprofile.
  - cbn [snd]. unfold write_rgb_image. by rewrite Hprofile.
  - cbn zeta. unfold rasterio_open_w. cbn [heap files open_error].
    set (path := os_path_join data_path "rgb.tif").
    set (kwargs := default ∅ (alter profile_update l (heap w) !! l)).
    set (w0 := {| heap := alter profile_update l (heap w); files := files w;
                  open_error := open_error w |}).
    set (w1 := {| heap := alter profile_update l (heap w);
                  files := <[path := {| ds_profile := kwargs; ds_bands := ∅ |}]>
                             (files w);
                  open_error := open_error w |}).
    assert (∀ w2, heap w2 = heap w1 → open_error w2 = open_error w →
                  (∀ ds, <[path := ds]> (files w2) = <[path := ds]> (files w)) →
                  files w2 = files w ∨ open_error w path kwargs = None →
                  write_rgb_image bands data_path w2
                  = match open_error w path kwargs with
                    | Some e => (Raise e, w0)
                    | None =>
                        match getitem bands "rgb" with
                        | Return (PArray rgb) =>
                            match iter_first_axis rgb with
                            | Return items => write_bands path 0 items w1
                            | Raise e => (Raise e, w1)
                            end
                        | Return (PProfile _) =>
                            (Raise (TypeError "band is not an array"), w1)
                        | Raise e => (Raise e, w1)
                        end
                    end) as Hagain.
    { intros w2 Hheap Hopen Hfiles Hcase. unfold write_rgb_image. rewrite Hprofile.
      cbn zeta. unfold rasterio_open_w. cbn [heap files open_error]. fold path.
      rewrite Hheap, Hopen. subst w1. cbn [heap].
      rewrite alter_profile_update_idemp. fold kwargs.
      destruct (open_error w path kwargs) as [e|] eqn:Herr.
      - destruct Hcase as [->|?]; done.
      - by rewrite Hfiles. }
    destruct (open_error w path kwargs) as [e|] eqn:Herr.
    { cbn [snd]. rewrite Hagain; [done|done|done|done|by left]. }
    destruct (getitem bands "rgb") as [[rgb|l']|e] eqn:Hrgb.
    + destruct (iter_first_axis rgb) as [items|e] eqn:Hitems.
      * rewrite Hagain; [done|apply write_bands_frame
                        |by rewrite write_bands_open| |by right].
        intros ds. rewrite write_bands_files. subst w1.
        cbn [files]. apply insert_insert_eq.
      * cbn [snd]. rewrite Hagain; [done|done|done| |by right].
        intros ds. subst w1. cbn [files]. apply insert_insert_eq.
    + cbn [snd]. rewrite Hagain; [done|done|done| |by right].
      intros ds. subst w1. cbn [files]. apply insert_insert_eq.
    + cbn [snd]. rewrite Hagain; [done|done|done| |by right].
      intros ds. subst w1. cbn [files]. apply insert_insert_eq.
  - cbn [snd]. unfold write_rgb_image. by rewrite Hprofile.
Qed.

Lemma chunks_concat size (ds : list (list Z)) :
  Forall (λ d, length d = size) ds →
  chunks (length ds) size (concat ds) = ds.
Proof.
  induction 1 as [|d rest Hd _ IH]; cbn [length chunks concat]; [done|].
  subst size. by rewrite take_app_length, drop_app_length, IH.
Qed.

(** X14 (create_rgb_stack, write_rgb_image): iterating over the array that
    [np.stack] makes, as the loop of [write_rgb_image] does, yields the
    stacked arrays again, in their order: each of them, when its samples
    fill its shape and its dtype is the stack's. *)
Theorem iterating_stack_returns_bands arrays stack :
  np_stack arrays = Return stack →
  Forall (λ a, dtype a = dtype stack ∧
               length (data a) = foldr Nat.mul 1%nat (shape a)) arrays →
  iter_first_axis stack = Return arrays.
Proof.
  intros Hstack Hwf. unfold np_stack in Hstack.
  destruct arrays as [|a rest]; [done|].
  destruct (all_same_shape (a :: rest)) eqn:Hsame; [|done].
  injection Hstack as <-. cbn [dtype] in Hwf.
  unfold iter_first_axis. cbn [shape dtype data]. f_equal.
  assert (Forall (λ b, shape b = shape a) (a :: rest)) as Hshape.
  { constructor; [done|]. apply Forall_forall. intros b Hb.
    cbn [all_same_shape] in Hsame.
    rewrite forallb_forall in Hsame. apply list_elem_of_In in Hb.
    specialize (Hsame b Hb). by apply bool_decide_eq_true_1 in Hsame. }
  change (S (length rest)) with (length (a :: rest)).
  change (data a ++ concat (map data rest)) with (concat (map data (a :: rest))).
  rewrite <- (length_map data), chunks_concat.
  - rewrite map_map. rewrite <- (map_id (a :: rest)) at 2.
    apply map_ext_in. intros b Hb. apply list_elem_of_In in Hb.
    rewrite Forall_forall in Hwf, Hshape.
    destruct (Hwf b Hb) as [Hd _]. specialize (Hshape b Hb).
    destruct b as [bd bs bdata]. cbn in *. by subst.
  - apply Forall_fmap, Forall_forall. intros b Hb.
    rewrite Forall_forall in Hwf, Hshape.
    destruct (Hwf b Hb) as [_ Hl]. specialize (Hshape b Hb).
    unfold compose. by rewrite Hl, Hshape.
Qed.

(** ** From the bands to the file *)


Section RenderFacts.

Context {env : Environment}.

(** The equalizer returns an image of the shape of its input. *)
Hypothesis equalize_adapthist_shape : ∀ image clip_limit,
  fshape (equalize_adapthist image clip_limit) = shape image ∧
  length (fdata (equalize_adapthist image clip_limit)) = length (data image).


End RenderFacts.

(** ** Properties of the plotting functions *)

Lemma write_rgb_image_heap bands data_path w :
  heap (write_rgb_image bands data_path w).2 =
  match bands !! "profile" with
  | Some (PProfile l) => alter profile_update l (heap w)
  | _ => heap w
  end.
Proof.
  unfold write_rgb_image, getitem.
  destruct (bands !! "profile") as [[a|l]|]; [done| |done].
  cbn zeta. unfold rasterio_open_w. cbn [heap files open_error].
  destruct (open_error w _ _); [done|].
  destruct (bands !! "rgb") as [[rgb|l']|]; [|done|done].
  destruct (iter_first_axis rgb) as [items|e]; [|done].
  by rewrite (proj1 (write_bands_frame _ _ _ _)).
Qed.

Lemma profile_transform_update heap bands l :
  bands !! "profile" = Some (PProfile l) →
  profile_transform (alter profile_update l heap) bands = profile_transform heap bands.
Proof.
  intros Hprofile. unfold profile_transform.
  rewrite (getitem_Some _ _ _ Hprofile). cbn [mbind result_bind].
  rewrite lookup_alter_eq. unfold getitem.
  destruct (heap !! l) as [p|]; cbn [fmap option_fmap option_map default]; [|done].
  unfold profile_update, id. by rewrite !lookup_insert_ne.
Qed.

Lemma profile_transform_after_write bands data_path w :
  profile_transform (heap (write_rgb_image bands data_path w).2) bands
  = profile_transform (heap w) bands.
Proof.
  rewrite write_rgb_image_heap.
  destruct (bands !! "profile") as [[a|l]|] eqn:Hprofile; [done| |done].
  by apply profile_transform_update.
Qed.

Section PlottingFacts.

Variable percentile_of_empty : result float64.

Lemma then_plot_shows step rest events r events' (P : plot_event → Prop) :
  then_plot step rest events = (r, events') →
  (∀ e, step = Return e → P e) →
  (∀ events0 r0 events1, rest events0 = (r0, events1) →
      Forall P events0 → Forall P events1) →
  Forall P events → Forall P events'.
Proof.
  unfold then_plot. intros Hrun Hstep Hrest Hevents.
  destruct step as [e|e].
  - apply (Hrest _ _ _ Hrun). apply Forall_app. split; [done|].
    constructor; [by apply Hstep|constructor].
  - by injection Hrun as _ <-.
Qed.

(** X16 (plot_rgb_bands): every image the function shows, whether it
    completes or stops at an error, has as the upper limit of its colour
    scale the 95th percentile of the red band: the green and the blue panel
    are scaled by the red band too, not by their own samples. *)
Theorem plot_rgb_bands_scales_by_red heap bands r events
    source panel cmap title transform vmax :
  plot_rgb_bands percentile_of_empty heap bands = (r, events) →
  ShowImage source panel cmap title transform vmax ∈ events →
  ∃ red v, bands !! "red" = Some (PArray red) ∧
           np_percentile percentile_of_empty red 95 = Return v ∧
           vmax = Some v.
Proof.
  intros Hrun Hin.
  set (P := λ e, match e with
                 | ShowImage _ _ _ _ _ vmax =>
                     ∃ red v, bands !! "red" = Some (PArray red) ∧
                              np_percentile percentile_of_empty red 95 = Return v ∧
                              vmax = Some v
                 | _ => True
                 end).
  assert (Forall P events) as Hall.
  { unfold plot_rgb_bands in Hrun. cbn zeta in Hrun.
    destruct (profile_transform heap bands) as [t|e].
    2:{ injection Hrun as _ <-. by repeat constructor. }
    assert (∀ k panel cmap title e,
              show_band percentile_of_empty bands k panel cmap title t = Return e →
              P e) as Hshow.
    { intros k n c ti e. unfold show_band, band_array, getitem.
      destruct (bands !! k) as [[a|l]|]; cbn [mbind result_bind]; [|done|done].
      destruct (bands !! "red") as [[red|l]|]; cbn [mbind result_bind]; [|done|done].
      destruct (np_percentile percentile_of_empty red 95) as [v|e'] eqn:Hv;
        cbn [mbind result_bind]; [|done].
      intros [= <-]. cbn. eauto. }
    eapply then_plot_shows; [exact Hrun|apply Hshow| |by repeat constructor].
    intros events0 r0 events1 Hrun0. eapply then_plot_shows; [exact Hrun0|apply Hshow|].
    intros events2 r2 events3 Hrun2. eapply then_plot_shows; [exact Hrun2|apply Hshow|].
    intros events4 r4 events5 [= _ <-] H4. apply Forall_app. split; [done|].
    by repeat constructor. }
  rewrite Forall_forall in Hall. exact (Hall _ Hin).
Qed.

(** X17 (plot_rgb_bands, plot_rgb_image, write_rgb_image): writing the image
    changes nothing of what the plotting functions show: on the profile
    object as [write_rgb_image] leaves it they make the calls, with the
    arguments, they make on the profile object as it was. *)
Theorem plots_unchanged_by_writing bands data_path w :
  plot_rgb_bands percentile_of_empty (heap (write_rgb_image bands data_path w).2) bands
  = plot_rgb_bands percentile_of_empty (heap w) bands ∧
  plot_rgb_image (heap (write_rgb_image bands data_path w).2) bands
  = plot_rgb_image (heap w) bands.
Proof.
  unfold plot_rgb_bands, plot_rgb_image.
  by rewrite profile_transform_after_write.
Qed.

End PlottingFacts.

(** ** Properties of [get_bands] *)

Lemma band_file_nonempty data_path file_format k :
  band_file data_path file_format k ≠ EmptyString.
Proof.
  unfold band_file, os_path_join.
  destruct (is_absolute (k +:+ "." +:+ file_format)).
  - by destruct k.
  - destruct data_path as [|c rest].
    + by destruct k.
    + by destruct (ends_with_sep (String c rest)).
Qed.

Lemma path_exists_stored p m c :
  p ≠ EmptyString → stored m !! p = Some c → path_exists p m = true.
Proof.
  intros Hp Hc. unfold path_exists. destruct p; [done|].
  rewrite Hc. rewrite (bool_decide_eq_true_2 (is_Some (Some c))) by eauto.
  apply orb_true_r.
Qed.

Lemma path_exists_absent p m :
  path_exists p m = false → stored m !! p = None ∨ p = EmptyString.
Proof.
  unfold path_exists. destruct p; [by right|]. intros H. left.
  apply orb_false_iff in H as [_ H]. apply bool_decide_eq_false_1 in H.
  by apply eq_None_not_Some.
Qed.

Lemma path_exists_ext p m1 m2 :
  directories m1 = directories m2 → stored m1 = stored m2 →
  path_exists p m1 = path_exists p m2.
Proof. unfold path_exists. by intros -> ->. Qed.

Ltac run_actions :=
  unfold mbind, action_bind, mret, action_ret, print, os_path_exists,
    requests_get, write_binary, rasterio_open, read_band, new_profile;
  cbn [fst snd directories stored web objects printed requested].

(** The loop body when the band's file is there and holds a raster with a
    band: nothing is requested or stored. *)
Lemma get_bands_body_cached data_path file_format bands k v m profile band others :
  stored m !! band_file data_path file_format k
  = Some (RasterContent profile (band :: others)) →
  ∃ bands1 m1,
    get_bands_body data_path file_format bands k v m = (Done bands1, m1) ∧
    stored m1 = stored m ∧ requested m1 = requested m ∧
    directories m1 = directories m ∧ web m1 = web m ∧
    bands1 !! k = Some (PArray band) ∧
    (∀ k', k' ≠ k → k' ≠ "profile" → bands1 !! k' = bands !! k') ∧
    (∀ o, <[k := PArray band]> bands !! "profile" = Some o →
          bands1 = <[k := PArray band]> bands ∧ objects m1 = objects m) ∧
    (<[k := PArray band]> bands !! "profile" = None →
     bands1 = <["profile" := PProfile (fresh (dom (objects m)))]>
                (<[k := PArray band]> bands) ∧
     objects m1 = <[fresh (dom (objects m)) := profile]> (objects m)).
Proof.
  intros Hfile.
  pose proof (path_exists_stored _ _ _ (band_file_nonempty _ _ _) Hfile) as Hex.
  unfold get_bands_body. fold (band_file data_path file_format k).
  run_actions. rewrite (path_exists_ext _ _ m), Hex by done.
  cbn [negb]. run_actions. rewrite Hfile.
  cbn [lookup list_lookup fst snd].
  destruct (<[k := PArray band]> bands !! "profile") as [o|] eqn:Hprofile.
  - eexists _, _. split; [reflexivity|]. cbn.
    repeat (split; [done|]). split; [apply lookup_insert_eq|].
    split; [by intros k' Hk _; rewrite lookup_insert_ne|].
    split; [done|done].
  - run_actions. eexists _, _. split; [reflexivity|]. cbn.
    repeat (split; [done|]).
    assert (k ≠ "profile") as Hk by (intros ->; by rewrite lookup_insert_eq in Hprofile).
    split; [by rewrite lookup_insert_ne, lookup_insert_eq|].
    split; [by intros k' Hk' Hp; rewrite !lookup_insert_ne|].
    split; [done|done].
Qed.

(** What the loop body leaves behind, however it ends. *)
Lemma get_bands_body_frame data_path file_format bands k v m o m1 :
  get_bands_body data_path file_format bands k v m = (o, m1) →
  web m1 = web m ∧ directories m1 = directories m ∧
  (∀ path c, stored m !! path = Some c → stored m1 !! path = Some c) ∧
  (∀ path c, stored m1 !! path = Some c →
     stored m !! path = Some c ∨
     (path = band_file data_path file_format k ∧ web m !! v = Some c)) ∧
  (∀ l p, objects m !! l = Some p → objects m1 !! l = Some p) ∧
  (requested m1 = requested m ∨
   (requested m1 = requested m ++ [v] ∧
    stored m !! band_file data_path file_format k = None)).
Proof.
  unfold get_bands_body. fold (band_file data_path file_format k).
  run_actions. rewrite (path_exists_ext _ _ m) by done.
  destruct (path_exists (band_file data_path file_format k) m) eqn:Hex;
    cbn [negb]; run_actions.
  - destruct (stored m !! band_file data_path file_format k)
      as [[profile [|band others]|body]|] eqn:Hfile;
      cbn [lookup list_lookup fst snd];
      try (intros [= <- <-]; cbn; by eauto 10).
    destruct (<[k := PArray band]> bands !! "profile"); run_actions;
      intros [= <- <-]; cbn; [by eauto 10|].
    repeat (split; [by eauto|]). split; [|by left].
    intros l p Hl. rewrite lookup_insert_ne; [done|].
    intros <-. apply (is_fresh (dom (objects m))), elem_of_dom. eauto.
  - destruct (path_exists_absent _ _ Hex) as [Habsent|Hempty];
      [|by destruct (band_file_nonempty _ _ _ Hempty)].
    destruct (web m !! v) as [body|] eqn:Hweb; run_actions.
    2:{ intros [= <- <-]; cbn. repeat (split; [by eauto|]). by right. }
    rewrite lookup_insert_eq.
    assert (∀ path c, stored m !! path = Some c →
              <[band_file data_path file_format k := body]> (stored m) !! path
              = Some c) as Hkept.
    { intros path c Hc. rewrite lookup_insert_ne; [done|]. congruence. }
    assert (∀ path c,
              <[band_file data_path file_format k := body]> (stored m) !! path
              = Some c →
              stored m !! path = Some c ∨
              (path = band_file data_path file_format k ∧ Some body = Some c))
      as Hmade.
    { intros path c. rewrite lookup_insert. case_decide; [|by left].
      intros [= <-]. by right. }
    destruct body as [profile [|band others]|body];
      cbn [lookup list_lookup fst snd];
      try (intros [= <- <-]; cbn; repeat (split; [by eauto|]); by right).
    destruct (<[k := PArray band]> bands !! "profile"); run_actions;
      intros [= <- <-]; cbn; [repeat (split; [by eauto|]); by right|].
    repeat (split; [by eauto|]). split; [|by right].
    intros l p Hl. rewrite lookup_insert_ne; [done|].
    intros <-. apply (is_fresh (dom (objects m))), elem_of_dom. eauto.
Qed.

(** What the loop body has done when it succeeds. *)
Lemma get_bands_body_done data_path file_format bands k v m bands1 m1 :
  get_bands_body data_path file_format bands k v m = (Done bands1, m1) →
  ∃ profile band others,
    stored m1 !! band_file data_path file_format k
    = Some (RasterContent profile (band :: others)) ∧
    bands1 !! k = Some (PArray band) ∧
    (∀ k', k' ≠ k → k' ≠ "profile" → bands1 !! k' = bands !! k') ∧
    (∀ o, <[k := PArray band]> bands !! "profile" = Some o →
          bands1 = <[k := PArray band]> bands ∧ objects m1 = objects m) ∧
    (<[k := PArray band]> bands !! "profile" = None →
     bands1 = <["profile" := PProfile (fresh (dom (objects m)))]>
                (<[k := PArray band]> bands) ∧
     objects m1 = <[fresh (dom (objects m)) := profile]> (objects m)).
Proof.
  assert (∀ (m0 : machine) profile band others r,
    objects m0 = objects m →
    stored m0 !! band_file data_path file_format k
    = Some (RasterContent profile (band :: others)) →
    (match <[k := PArray band]> bands !! "profile" with
     | Some _ => mret (<[k := PArray band]> bands)
     | None => profile ← new_profile profile;
               mret (<["profile" := PProfile profile]> (<[k := PArray band]> bands))
     end) m0 = r → r = (Done bands1, m1) →
    ∃ profile band others,
      stored m1 !! band_file data_path file_format k
      = Some (RasterContent profile (band :: others)) ∧
      bands1 !! k = Some (PArray band) ∧
      (∀ k', k' ≠ k → k' ≠ "profile" → bands1 !! k' = bands !! k') ∧
      (∀ o, <[k := PArray band]> bands !! "profile" = Some o →
            bands1 = <[k := PArray band]> bands ∧ objects m1 = objects m) ∧
      (<[k := PArray band]> bands !! "profile" = None →
       bands1 = <["profile" := PProfile (fresh (dom (objects m)))]>
                  (<[k := PArray band]> bands) ∧
       objects m1 = <[fresh (dom (objects m)) := profile]> (objects m))) as Hend.
  { intros m0 profile band others r Hobjects Hfile <-.
    destruct (<[k := PArray band]> bands !! "profile") as [o|] eqn:Hprofile;
      run_actions; intros [= <- <-]; exists profile, band, others; cbn.
    - split; [done|]. split; [apply lookup_insert_eq|].
      split; [by intros k' Hk _; rewrite lookup_insert_ne|].
      split; [by intros o' _|]. by rewrite Hprofile.
    - assert (k ≠ "profile") as Hk
        by (intros ->; by rewrite lookup_insert_eq in Hprofile).
      split; [done|]. split; [by rewrite lookup_insert_ne, lookup_insert_eq|].
      split; [by intros k' Hk' Hp; rewrite !lookup_insert_ne|].
      split; [by rewrite Hprofile|]. intros _. by rewrite Hobjects. }
  unfold get_bands_body. fold (band_file data_path file_format k).
  run_actions. rewrite (path_exists_ext _ _ m) by done.
  destruct (path_exists (band_file data_path file_format k) m) eqn:Hex;
    cbn [negb]; run_actions.
  - destruct (stored m !! band_file data_path file_format k)
      as [[profile [|band others]|body]|] eqn:Hfile;
      cbn [lookup list_lookup fst snd]; try done.
    intros Hrun. eapply (Hend _ profile band others); [| |reflexivity|exact Hrun];
      [done|done].
  - destruct (web m !! v) as [body|] eqn:Hweb; run_actions; [|done].
    rewrite lookup_insert_eq.
    destruct body as [profile [|band others]|body];
      cbn [lookup list_lookup fst snd]; try done.
    intros Hrun. eapply (Hend _ profile band others); [| |reflexivity|exact Hrun];
      [done|apply lookup_insert_eq].
Qed.

(** What the loop leaves behind, however it ends. *)
Lemma get_bands_loop_frame data_path file_format items : ∀ bands m o m',
  get_bands_loop data_path file_format bands items m = (o, m') →
  web m' = web m ∧ directories m' = directories m ∧
  (∀ path c, stored m !! path = Some c → stored m' !! path = Some c) ∧
  (∀ path c, stored m' !! path = Some c →
     stored m !! path = Some c ∨
     ∃ k v, (k, v) ∈ items ∧ path = band_file data_path file_format k ∧
            web m !! v = Some c) ∧
  (∀ l p, objects m !! l = Some p → objects m' !! l = Some p) ∧
  ∃ new, requested m' = requested m ++ new ∧
         Forall (λ u, ∃ k, (k, u) ∈ items ∧
                           stored m !! band_file data_path file_format k = None) new.
Proof.
  induction items as [|[k v] rest IH]; intros bands m o m'; cbn [get_bands_loop].
  - intros [= <- <-]. repeat (split; [by eauto|]).
    exists []. by rewrite app_nil_r.
  - unfold mbind, action_bind.
    destruct (get_bands_body data_path file_format bands k v m) as [[bands1|e] m1]
      eqn:Hbody.
    + intros Hrest.
      destruct (get_bands_body_frame _ _ _ _ _ _ _ _ Hbody)
        as (Hweb & Hdirs & Hkept & Hmade & Hobjects & Hrequested).
      destruct (IH _ _ _ _ Hrest)
        as (Hweb' & Hdirs' & Hkept' & Hmade' & Hobjects' & new & Hnew & Hall).
      split; [congruence|]. split; [congruence|]. split; [by eauto|].
      split.
      { intros path c Hc. destruct (Hmade' _ _ Hc) as [Hc1|(k' & v' & Hin & -> & Hw)].
        - destruct (Hmade _ _ Hc1) as [Hc0|[-> Hw]]; [by left|right].
          exists k, v. split; [apply list_elem_of_here|done].
        - right. exists k', v'. split; [by apply list_elem_of_further|].
          split; [done|congruence]. }
      split; [by eauto|].
      assert (Forall (λ u, ∃ k0, (k0, u) ∈ (k, v) :: rest ∧
                stored m !! band_file data_path file_format k0 = None) new) as Hall'.
      { eapply Forall_impl; [exact Hall|]. cbn beta.
        intros u (k' & Hin & Habsent). exists k'.
        split; [by apply list_elem_of_further|].
        destruct (stored m !! band_file data_path file_format k') as [c|] eqn:Hc;
          [|done]. by rewrite (Hkept _ _ Hc) in Habsent. }
      destruct Hrequested as [Hsame|[Hmore Habsent]].
      * exists new. split; [congruence|done].
      * exists (v :: new). split; [by rewrite Hnew, Hmore, <- app_assoc|].
        constructor; [|done]. exists k. split; [apply list_elem_of_here|done].
    + intros [= <- <-].
      destruct (get_bands_body_frame _ _ _ _ _ _ _ _ Hbody)
        as (Hweb & Hdirs & Hkept & Hmade & Hobjects & Hrequested).
      repeat (split; [done|]). split.
      { intros path c Hc. destruct (Hmade _ _ Hc) as [Hc0|[-> Hw]]; [by left|right].
        exists k, v. split; [apply list_elem_of_here|done]. }
      split; [done|].
      destruct Hrequested as [Hsame|[Hmore Habsent]].
      * exists []. by rewrite app_nil_r.
      * exists [v]. split; [done|]. constructor; [|done].
        exists k. split; [apply list_elem_of_here|done].
Qed.

(** What a loop that succeeds returns. *)
Lemma get_bands_loop_done data_path file_format items : ∀ bands m bands' m',
  get_bands_loop data_path file_format bands items m = (Done bands', m') →
  (∀ k v, (k, v) ∈ items →
     ∃ profile band others,
       stored m' !! band_file data_path file_format k
       = Some (RasterContent profile (band :: others)) ∧
       bands' !! k = Some (PArray band)) ∧
  (∀ k a, bands !! k = Some (PArray a) → k ∉ items.*1 →
          bands' !! k = Some (PArray a)).
Proof.
  induction items as [|[k v] rest IH]; intros bands m bands' m'; cbn [get_bands_loop].
  - intros [= <- <-]. split; [|done]. intros k v Hin. by apply elem_of_nil in Hin.
  - unfold mbind, action_bind.
    destruct (get_bands_body data_path file_format bands k v m) as [[bands1|e] m1]
      eqn:Hbody; [|done].
    intros Hrest.
    destruct (get_bands_body_done _ _ _ _ _ _ _ _ Hbody)
      as (profile & band & others & Hfile & Hk & Hother & Hsome & Hnone).
    destruct (IH _ _ _ _ Hrest) as [IHa IHb].
    destruct (get_bands_loop_frame _ _ _ _ _ _ _ Hrest) as (_ & _ & Hkept & _).
    split.
    + intros k' v' Hin. apply elem_of_cons in Hin as [[= -> ->]|Hin]; [|by eauto].
      destruct (decide (k ∈ rest.*1)) as [Hdup|Hfresh].
      * apply list_elem_of_fmap in Hdup as ([k0 v0] & -> & Hin). by eauto.
      * exists profile, band, others. split; [by apply Hkept|by apply IHb].
    + intros k' a Ha Hk'. cbn [fmap list_fmap fst] in Hk'.
      apply not_elem_of_cons in Hk' as [Hne Hk'].
      apply IHb; [|done].
      destruct (decide (k' = "profile")) as [->|Hp]; [|by rewrite Hother].
      destruct (Hsome (PArray a)) as [-> _]; by rewrite lookup_insert_ne.
Qed.

(** The loop when every band's file is there and holds a raster with a
    band. *)
Lemma get_bands_loop_cached data_path file_format items : ∀ bands m,
  (∀ k v, (k, v) ∈ items →
     ∃ profile band others,
       stored m !! band_file data_path file_format k
       = Some (RasterContent profile (band :: others))) →
  ∃ bands' m',
    get_bands_loop data_path file_format bands items m = (Done bands', m') ∧
    stored m' = stored m ∧ requested m' = requested m ∧
    directories m' = directories m ∧ web m' = web m.
Proof.
  induction items as [|[k v] rest IH]; intros bands m Hfiles; cbn [get_bands_loop].
  - by eexists _, _.
  - destruct (Hfiles k v) as (profile & band & others & Hfile);
      [apply list_elem_of_here|].
    destruct (get_bands_body_cached data_path file_format bands k v m _ _ _ Hfile)
      as (bands1 & m1 & Hbody & Hstored & Hrequested & Hdirs & Hweb & _).
    unfold mbind, action_bind. rewrite Hbody.
    destruct (IH bands1 m1) as (bands' & m' & Hrest & Hstored' & Hrequested' & Hdirs' & Hweb').
    { intros k' v' Hin. rewrite Hstored. apply (Hfiles k' v').
      by apply list_elem_of_further. }
    exists bands', m'. split; [done|]. repeat split; congruence.
Qed.

(** The steps of [get_bands] before the loop. *)
Lemma get_bands_start band_urls data_path file_format m :
  (data_path = EmptyString ∧
   get_bands band_urls data_path file_format m = (Failed (FileNotFoundError data_path), m)) ∨
  ∃ m0,
    get_bands band_urls data_path file_format m
    = get_bands_loop data_path file_format ∅ band_urls m0 ∧
    stored m0 = stored m ∧ web m0 = web m ∧ objects m0 = objects m ∧
    requested m0 = requested m ∧ directories m ⊆ directories m0 ∧
    path_exists data_path m0 = true ∧
    (path_exists data_path m = true → m0 = m).
Proof.
  unfold get_bands. run_actions.
  destruct (path_exists data_path m) eqn:Hex; cbn [negb]; run_actions.
  - right. exists m. by repeat split.
  - unfold os_makedirs. destruct data_path as [|c rest]; [by left|right].
    rewrite Hex. eexists. split; [reflexivity|]. cbn.
    repeat (split; [done|]). split; [set_solver|]. split; [|done].
    rewrite orb_true_iff. left. apply bool_decide_eq_true_2. set_solver.
Qed.

Lemma path_exists_mono p m m' :
  directories m ⊆ directories m' →
  (∀ path c, stored m !! path = Some c → stored m' !! path = Some c) →
  path_exists p m = true → path_exists p m' = true.
Proof.
  unfold path_exists. intros Hdirs Hkept. destruct p; [done|].
  rewrite !orb_true_iff. intros [H|H]; [left|right].
  - apply bool_decide_eq_true_1 in H. apply bool_decide_eq_true_2. set_solver.
  - apply bool_decide_eq_true_1 in H as [c Hc]. apply bool_decide_eq_true_2.
    rewrite (Hkept _ _ Hc). eauto.
Qed.

(** The loop body stops at [rasterio.open] only on a path that exists and
    holds no raster. *)
Lemma get_bands_body_unreadable data_path file_format bands k v m path m1 :
  get_bands_body data_path file_format bands k v m
  = (Failed (RasterioIOError path), m1) →
  path = band_file data_path file_format k ∧
  path_exists path m1 = true ∧
  ∀ profile raster, stored m1 !! path ≠ Some (RasterContent profile raster).
Proof.
  unfold get_bands_body. fold (band_file data_path file_format k).
  run_actions. rewrite (path_exists_ext _ _ m) by done.
  destruct (path_exists (band_file data_path file_format k) m) eqn:Hex;
    cbn [negb]; run_actions.
  - destruct (stored m !! band_file data_path file_format k)
      as [[profile [|band others]|body]|] eqn:Hfile;
      cbn [lookup list_lookup fst snd]; try done.
    + destruct (<[k := PArray band]> bands !! "profile"); run_actions; done.
    + intros [= <- <-]. split; [done|].
      split; [by rewrite (path_exists_ext _ _ m)|].
      intros profile raster. cbn [stored]. by rewrite Hfile.
    + intros [= <- <-]. split; [done|].
      split; [by rewrite (path_exists_ext _ _ m)|].
      intros profile raster. cbn [stored]. by rewrite Hfile.
  - destruct (web m !! v) as [body|] eqn:Hweb; run_actions; [|done].
    rewrite lookup_insert_eq.
    destruct body as [profile [|band others]|body];
      cbn [lookup list_lookup fst snd]; try done.
    + destruct (<[k := PArray band]> bands !! "profile"); run_actions; done.
    + intros [= <- <-]. split; [done|]. split.
      * eapply path_exists_stored; [apply band_file_nonempty|]. cbn [stored].
        apply lookup_insert_eq.
      * intros profile raster. cbn [stored]. by rewrite lookup_insert_eq.
Qed.

(** On a path that exists and holds no raster the loop body stops at
    [rasterio.open], and requests nothing. *)
Lemma get_bands_body_poisoned data_path file_format bands k v m :
  path_exists (band_file data_path file_format k) m = true →
  (∀ profile raster,
     stored m !! band_file data_path file_format k
     ≠ Some (RasterContent profile raster)) →
  ∃ m1,
    get_bands_body data_path file_format bands k v m
    = (Failed (RasterioIOError (band_file data_path file_format k)), m1) ∧
    stored m1 = stored m ∧ requested m1 = requested m ∧
    directories m1 = directories m.
Proof.
  intros Hex Hfile.
  unfold get_bands_body. fold (band_file data_path file_format k).
  run_actions. rewrite (path_exists_ext _ _ m), Hex by done.
  cbn [negb]. run_actions.
  destruct (stored m !! band_file data_path file_format k)
    as [[profile raster|body]|] eqn:Hc; [by destruct (Hfile profile raster)|..];
    by eexists.
Qed.

Lemma get_bands_loop_poisoned data_path file_format items path : ∀ bands m m1,
  get_bands_loop data_path file_format bands items m
  = (Failed (RasterioIOError path), m1) →
  ∀ bands2 m2,
    stored m2 = stored m1 → directories m2 = directories m1 →
    ∃ m3,
      get_bands_loop data_path file_format bands2 items m2
      = (Failed (RasterioIOError path), m3) ∧
      stored m3 = stored m2 ∧ requested m3 = requested m2.
Proof.
  induction items as [|[k v] rest IH]; intros bands m m1; cbn [get_bands_loop];
    [done|].
  unfold mbind, action_bind.
  destruct (get_bands_body data_path file_format bands k v m) as [[bands1|e] m1']
    eqn:Hbody.
  - intros Hrest bands2 m2 Hstored Hdirs.
    destruct (get_bands_body_done _ _ _ _ _ _ _ _ Hbody)
      as (profile & band & others & Hfile & _).
    destruct (get_bands_loop_frame _ _ _ _ _ _ _ Hrest) as (_ & _ & Hkept & _).
    apply Hkept in Hfile. rewrite <- Hstored in Hfile.
    destruct (get_bands_body_cached data_path file_format bands2 k v m2 _ _ _ Hfile)
      as (bands3 & m3 & Hbody2 & Hstored3 & Hrequested3 & Hdirs3 & _).
    rewrite Hbody2.
    destruct (IH _ _ _ Hrest bands3 m3) as (m4 & Hrun & Hstored4 & Hrequested4);
      [congruence|congruence|].
    exists m4. split; [done|]. split; congruence.
  - intros [= -> <-] bands2 m2 Hstored Hdirs.
    destruct (get_bands_body_unreadable _ _ _ _ _ _ _ _ Hbody) as (-> & Hex & Hfile).
    destruct (get_bands_body_poisoned data_path file_format bands2 k v m2)
      as (m3 & Hbody2 & Hstored3 & Hrequested3 & _).
    { by rewrite (path_exists_ext _ _ m1'). }
    { by rewrite Hstored. }
    rewrite Hbody2. by exists m3.
Qed.

Lemma get_bands_loop_profile data_path file_format items : ∀ bands m bands' m' o,
  get_bands_loop data_path file_format bands items m = (Done bands', m') →
  bands !! "profile" = Some o → "profile" ∉ items.*1 →
  bands' !! "profile" = Some o ∧ objects m' = objects m.
Proof.
  induction items as [|[k v] rest IH]; intros bands m bands' m' o;
    cbn [get_bands_loop].
  - by intros [= <- <-].
  - unfold mbind, action_bind.
    destruct (get_bands_body data_path file_format bands k v m) as [[bands1|e] m1]
      eqn:Hbody; [|done].
    intros Hrest Hprofile Hk. cbn [fmap list_fmap fst] in Hk.
    apply not_elem_of_cons in Hk as [Hne Hk].
    destruct (get_bands_body_done _ _ _ _ _ _ _ _ Hbody)
      as (profile & band & others & _ & _ & _ & Hsome & _).
    destruct (Hsome o) as [-> Hobjects]; [by rewrite lookup_insert_ne|].
    destruct (IH _ _ _ _ o Hrest) as [Hp Ho]; [by rewrite lookup_insert_ne|done|].
    split; [done|congruence].
Qed.

(** X18 (get_bands): however the call ends, every file that was there is
    still there with its content, every directory and every profile object
    too: [get_bands] overwrites and deletes nothing. *)
Theorem get_bands_keeps_what_exists band_urls data_path file_format m o m' :
  get_bands band_urls data_path file_format m = (o, m') →
  (∀ path c, stored m !! path = Some c → stored m' !! path = Some c) ∧
  directories m ⊆ directories m' ∧
  (∀ l p, objects m !! l = Some p → objects m' !! l = Some p).
Proof.
  intros Hrun.
  destruct (get_bands_start band_urls data_path file_format m)
    as [[_ Hfail]|(m0 & Hloop & Hstored & _ & Hobjects & _ & Hdirs & _)].
  { rewrite Hfail in Hrun. by injection Hrun as _ <-. }
  rewrite Hloop in Hrun.
  destruct (get_bands_loop_frame _ _ _ _ _ _ _ Hrun)
    as (_ & Hdirs' & Hkept & _ & Hobjects' & _).
  split; [intros path c Hc; apply Hkept; by rewrite Hstored|].
  split; [by rewrite Hdirs'|].
  intros l p Hl. apply Hobjects'. by rewrite Hobjects.
Qed.

(** X19 (get_bands): however the call ends, a file that is there afterwards
    and was not before is the file of one of the bands, and holds the body
    the server sent for a URL of that band, as it was sent, raster or not. *)
Theorem get_bands_creates_only_band_files band_urls data_path file_format
    m o m' path c :
  get_bands band_urls data_path file_format m = (o, m') →
  stored m' !! path = Some c →
  stored m !! path = None →
  ∃ k v, (k, v) ∈ band_urls ∧ path = band_file data_path file_format k ∧
         web m !! v = Some c.
Proof.
  intros Hrun Hc Habsent.
  destruct (get_bands_start band_urls data_path file_format m)
    as [[_ Hfail]|(m0 & Hloop & Hstored & Hweb & _)].
  { rewrite Hfail in Hrun. injection Hrun as _ <-. congruence. }
  rewrite Hloop in Hrun.
  destruct (get_bands_loop_frame _ _ _ _ _ _ _ Hrun) as (_ & _ & _ & Hmade & _).
  destruct (Hmade _ _ Hc) as [Hc0|(k & v & Hin & -> & Hw)]; [congruence|].
  exists k, v. split; [done|]. split; [done|]. by rewrite <- Hweb.
Qed.

(** X20 (get_bands): however the call ends, the requests it made are for
    URLs of bands whose file was not there when it started: a band whose
    file is present is never requested. *)
Theorem get_bands_requests_only_missing band_urls data_path file_format m o m' :
  get_bands band_urls data_path file_format m = (o, m') →
  ∃ new, requested m' = requested m ++ new ∧
         ∀ u, u ∈ new →
              ∃ k, (k, u) ∈ band_urls ∧
                   stored m !! band_file data_path file_format k = None.
Proof.
  intros Hrun.
  destruct (get_bands_start band_urls data_path file_format m)
    as [[_ Hfail]|(m0 & Hloop & Hstored & _ & _ & Hrequested & _)].
  { rewrite Hfail in Hrun. injection Hrun as _ <-. exists [].
    split; [by rewrite app_nil_r|]. intros u Hu. by apply elem_of_nil in Hu. }
  rewrite Hloop in Hrun.
  destruct (get_bands_loop_frame _ _ _ _ _ _ _ Hrun)
    as (_ & _ & _ & _ & _ & new & Hnew & Hall).
  exists new. split; [congruence|]. rewrite Forall_forall in Hall.
  intros u Hu. destruct (Hall u Hu) as (k & Hin & Habsent).
  exists k. split; [done|congruence].
Qed.

(** X21 (get_bands): when the call succeeds, the entry of every band is
    the first band of the raster that the band's file holds. *)
Theorem get_bands_returns_first_bands band_urls data_path file_format
    m bands m' k v :
  get_bands band_urls data_path file_format m = (Done bands, m') →
  (k, v) ∈ band_urls →
  ∃ profile band others,
    stored m' !! band_file data_path file_format k
    = Some (RasterContent profile (band :: others)) ∧
    bands !! k = Some (PArray band).
Proof.
  intros Hrun Hin.
  destruct (get_bands_start band_urls data_path file_format m)
    as [[_ Hfail]|(m0 & Hloop & _)]; [congruence|].
  rewrite Hloop in Hrun.
  by apply (proj1 (get_bands_loop_done _ _ _ _ _ _ _ Hrun) k v).
Qed.

(** X22 (get_bands): when the data directory exists and the file of every
    band holds a raster with a band, the call succeeds without a request
    and without touching a file, and returns the first band of each file:
    the server is not needed. *)
Theorem get_bands_from_cache band_urls data_path file_format m :
  path_exists data_path m = true →
  (∀ k v, (k, v) ∈ band_urls →
     ∃ profile band others,
       stored m !! band_file data_path file_format k
       = Some (RasterContent profile (band :: others))) →
  ∃ bands m',
    get_bands band_urls data_path file_format m = (Done bands, m') ∧
    stored m' = stored m ∧ requested m' = requested m ∧
    directories m' = directories m ∧
    ∀ k v, (k, v) ∈ band_urls →
      ∃ profile band others,
        stored m !! band_file data_path file_format k
        = Some (RasterContent profile (band :: others)) ∧
        bands !! k = Some (PArray band).
Proof.
  intros Hex Hfiles.
  destruct (get_bands_start band_urls data_path file_format m)
    as [[-> _]|(m0 & Hloop & _ & _ & _ & _ & _ & _ & Hsame)]; [done|].
  rewrite (Hsame Hex) in Hloop.
  destruct (get_bands_loop_cached data_path file_format band_urls ∅ m Hfiles)
    as (bands & m' & Hrun & Hstored & Hrequested & Hdirs & _).
  exists bands, m'. split; [congruence|]. repeat (split; [done|]).
  intros k v Hin.
  destruct (proj1 (get_bands_loop_done _ _ _ _ _ _ _ Hrun) k v Hin)
    as (profile & band & others & Hfile & Hband).
  exists profile, band, others. split; [by rewrite <- Hstored|done].
Qed.

(** X23 (get_bands): after a call that succeeded, the same call succeeds
    again, requests nothing, touches no file, and returns for every band
    the array the first call returned. *)
Theorem get_bands_again band_urls data_path file_format m bands m1 :
  get_bands band_urls data_path file_format m = (Done bands, m1) →
  ∃ bands2 m2,
    get_bands band_urls data_path file_format m1 = (Done bands2, m2) ∧
    stored m2 = stored m1 ∧ requested m2 = requested m1 ∧
    ∀ k v, (k, v) ∈ band_urls → bands2 !! k = bands !! k.
Proof.
  intros Hrun.
  destruct (get_bands_start band_urls data_path file_format m)
    as [[_ Hfail]|(m0 & Hloop & _ & _ & _ & _ & _ & Hex & _)]; [congruence|].
  rewrite Hloop in Hrun.
  destruct (get_bands_loop_frame _ _ _ _ _ _ _ Hrun) as (_ & Hdirs & Hkept & _).
  destruct (get_bands_loop_done _ _ _ _ _ _ _ Hrun) as [Hfirst _].
  assert (path_exists data_path m1 = true) as Hex1.
  { eapply path_exists_mono; [|exact Hkept|exact Hex]. by rewrite Hdirs. }
  destruct (get_bands_start band_urls data_path file_format m1)
    as [[-> _]|(m0' & Hloop' & _ & _ & _ & _ & _ & _ & Hsame)]; [done|].
  rewrite (Hsame Hex1) in Hloop'.
  destruct (get_bands_loop_cached data_path file_format band_urls ∅ m1)
    as (bands2 & m2 & Hrun2 & Hstored & Hrequested & _).
  { intros k v Hin. destruct (Hfirst k v Hin) as (profile & band & others & Hfile & _).
    by eauto. }
  exists bands2, m2. split; [congruence|]. repeat (split; [done|]).
  intros k v Hin.
  destruct (Hfirst k v Hin) as (profile & band & others & Hfile & ->).
  destruct (proj1 (get_bands_loop_done _ _ _ _ _ _ _ Hrun2) k v Hin)
    as (profile2 & band2 & others2 & Hfile2 & ->).
  rewrite Hstored, Hfile in Hfile2. by injection Hfile2 as _ <- _.
Qed.

(** X24 (get_bands): when the call stops because a band's file is no
    raster that rasterio opens (the body of an error response that was
    stored, say), any later call that finds the files and directories as
    this one left them stops the same way and requests nothing, whatever
    the server would send by then: the file is not fetched again. *)
Theorem get_bands_keeps_unreadable_file band_urls data_path file_format
    m path m1 m2 :
  get_bands band_urls data_path file_format m
  = (Failed (RasterioIOError path), m1) →
  stored m2 = stored m1 → directories m2 = directories m1 →
  ∃ m3,
    get_bands band_urls data_path file_format m2
    = (Failed (RasterioIOError path), m3) ∧
    stored m3 = stored m2 ∧ requested m3 = requested m2.
Proof.
  intros Hrun Hstored Hdirs.
  destruct (get_bands_start band_urls data_path file_format m)
    as [[_ Hfail]|(m0 & Hloop & _ & _ & _ & _ & _ & Hex & _)]; [congruence|].
  rewrite Hloop in Hrun.
  destruct (get_bands_loop_frame _ _ _ _ _ _ _ Hrun) as (_ & Hdirs1 & Hkept & _).
  assert (path_exists data_path m2 = true) as Hex2.
  { rewrite (path_exists_ext _ _ m1) by done.
    eapply path_exists_mono; [|exact Hkept|exact Hex]. by rewrite Hdirs1. }
  destruct (get_bands_start band_urls data_path file_format m2)
    as [[-> _]|(m0' & Hloop' & _ & _ & _ & _ & _ & _ & Hsame)]; [done|].
  rewrite (Hsame Hex2) in Hloop'. rewrite Hloop'.
  by apply (get_bands_loop_poisoned _ _ _ _ _ _ _ Hrun).
Qed.

(** X25 (get_bands): when no band is named 'profile' and the call succeeds,
    the entry 'profile' is one new profile object, which holds the profile
    of the file of the first band of the dict; no other object is made or
    changed, and the profiles of the other files are not looked at. *)
Theorem get_bands_profile_of_first_band k0 v0 rest data_path file_format
    m bands m' :
  get_bands ((k0, v0) :: rest) data_path file_format m = (Done bands, m') →
  "profile" ∉ ((k0, v0) :: rest).*1 →
  ∃ l profile raster,
    bands !! "profile" = Some (PProfile l) ∧
    objects m !! l = None ∧
    objects m' = <[l := profile]> (objects m) ∧
    stored m' !! band_file data_path file_format k0
    = Some (RasterContent profile raster).
Proof.
  intros Hrun Hkeys.
  destruct (get_bands_start ((k0, v0) :: rest) data_path file_format m)
    as [[_ Hfail]|(m0 & Hloop & _ & _ & Hobjects & _)]; [congruence|].
  rewrite Hloop in Hrun. cbn [get_bands_loop] in Hrun.
  unfold mbind, action_bind in Hrun.
  destruct (get_bands_body data_path file_format ∅ k0 v0 m0) as [[bands1|e] m1]
    eqn:Hbody; [|done].
  cbn [fmap list_fmap fst] in Hkeys.
  apply not_elem_of_cons in Hkeys as [Hne Hkeys].
  destruct (get_bands_body_done _ _ _ _ _ _ _ _ Hbody)
    as (profile & band & others & Hfile & _ & _ & _ & Hnone).
  destruct Hnone as [-> Hobjects1];
    [by rewrite lookup_insert_ne, lookup_empty|].
  destruct (get_bands_loop_frame _ _ _ _ _ _ _ Hrun) as (_ & _ & Hkept & _).
  destruct (get_bands_loop_profile _ _ _ _ _ _ _ _ Hrun (lookup_insert_eq _ _ _) Hkeys)
    as [Hprofile Hobjects'].
  exists (fresh (dom (objects m0))), profile, (band :: others).
  split; [done|]. rewrite <- Hobjects.
  split; [apply not_elem_of_dom, is_fresh|].
  split; [congruence|by apply Hkept].
Qed.

(** X26 (get_bands, write_rgb_image): a band named 'profile' takes the
    place of the profile: when the call succeeds the entry 'profile' is
    that band's array, and [write_rgb_image] on the dict raises
    AttributeError before it changes anything. *)
Theorem band_named_profile_hides_profile band_urls data_path file_format
    m bands m' v :
  get_bands band_urls data_path file_format m = (Done bands, m') →
  ("profile", v) ∈ band_urls →
  (∃ band, bands !! "profile" = Some (PArray band)) ∧
  ∀ out_path w,
    write_rgb_image bands out_path w
    = (Raise (AttributeError "'numpy.ndarray' object has no attribute 'update'"), w).
Proof.
  intros Hrun Hin.
  destruct (get_bands_start band_urls data_path file_format m)
    as [[_ Hfail]|(m0 & Hloop & _)]; [congruence|].
  rewrite Hloop in Hrun.
  destruct (proj1 (get_bands_loop_done _ _ _ _ _ _ _ Hrun) _ _ Hin)
    as (profile & band & others & _ & Hband).
  split; [by eauto|]. intros out_path w. unfold write_rgb_image.
  by rewrite (getitem_Some _ _ _ Hband).
Qed.

(** ** The further properties on concrete inputs *)




Lemma create_rgb_stack_reads_four_keys_witness :
  create_rgb_stack scenario_bands "rescaling" 2 (3 # 100)
  = create_rgb_stack (<["nir" := constant_band]> scenario_bands) "rescaling" 2 (3 # 100).
Proof.
  apply (create_rgb_stack_reads_four_keys
           scenario_bands (<["nir" := constant_band]> scenario_bands)).
  intros k Hk. rewrite lookup_insert_ne; [reflexivity|].
  intros <-. repeat (apply elem_of_cons in Hk as [Hk|Hk]; [discriminate|]).
  by apply elem_of_nil in Hk.
Defined.

Lemma all_fill_pixels_single_value_witness :
  ∃ out v,
    modify_band (<["qa" := all_fill_qa]> scenario_bands) "rescaling" 2 (3 # 100)
                None scenario_band
    = Return (Some out) ∧
    Forall (λ o, o = v) (data out).
Proof.
  destruct (all_fill_pixels_single_value
              (<["qa" := all_fill_qa]> scenario_bands) all_fill_qa scenario_band
              2 (3 # 100) None 2 2)
    as (masked & out & v & _ & _ & Hout & _ & _ & _ & Hall).
  - reflexivity.
  - reflexivity.
  - reflexivity.
  - discriminate.
  - reflexivity.
  - repeat constructor.
  - split; discriminate.
  - exists out, v. split; [exact Hout | exact Hall].
Defined.

Lemma write_rgb_image_writes_channels_witness :
  ∃ w' ds,
    write_rgb_image scene_bands "data" scene_world = (Return (), w') ∧
    files w' !! "data/rgb.tif" = Some ds ∧
    ds_profile ds = profile_update scene_profile.
Proof.
  edestruct (write_rgb_image_writes_channels scene_bands "data" scene_world
               1%positive scene_profile)
    with (h := 2%nat) (wd := 2%nat)
    as (w' & ds & Hrun & Hfile & Hprofile & _).
  - reflexivity.
  - reflexivity.
  - reflexivity.
  - reflexivity.
  - reflexivity.
  - reflexivity.
  - reflexivity.
  - repeat constructor.
  - cbn. lia.
  - exists w', ds. split; [exact Hrun|]. split; [exact Hfile | exact Hprofile].
Defined.

Lemma write_rgb_image_too_many_channels_witness :
  ∃ msg w' ds,
    write_rgb_image four_channel_bands "data" scene_world
    = (Raise (IndexError msg), w') ∧
    files w' !! "data/rgb.tif" = Some ds ∧
    ds_bands ds !! 4 = None.
Proof.
  edestruct (write_rgb_image_too_many_channels four_channel_bands "data" scene_world
               1%positive scene_profile)
    with (h := 2%nat) (wd := 2%nat)
    as (msg & w' & ds & Hrun & Hfile & _ & Hbands).
  - reflexivity.
  - reflexivity.
  - reflexivity.
  - reflexivity.
  - reflexivity.
  - reflexivity.
  - reflexivity.
  - repeat constructor.
  - cbn. lia.
  - exists msg, w', ds. split; [exact Hrun|].
    split; [exact Hfile | exact (Hbands 4)].
Defined.

Lemma write_rgb_image_missing_rgb_witness :
  ∃ w',
    write_rgb_image (<["profile" := PProfile 1%positive]> ∅) "data" scene_world
    = (Raise (KeyError "rgb"), w') ∧
    heap w' !! 1%positive = Some (profile_update scene_profile) ∧
    files w' !! "data/rgb.tif"
    = Some {| ds_profile := profile_update scene_profile; ds_bands := ∅ |}.
Proof.
  apply (write_rgb_image_missing_rgb (<["profile" := PProfile 1%positive]> ∅)
           "data" scene_world 1%positive scene_profile); reflexivity.
Defined.

Lemma iterating_stack_returns_bands_witness :
  iter_first_axis {| dtype := uint16; shape := [2%nat; 2%nat; 2%nat];
                     data := [5; 5; 5; 5; 5; 5; 5; 5] |}
  = Return [constant_band; constant_band].
Proof.
  apply (iterating_stack_returns_bands [constant_band; constant_band]).
  - reflexivity.
  - repeat constructor.
Defined.


Lemma plot_rgb_bands_scales_by_red_witness :
  ∃ red v,
    loaded_bands !! "red" = Some (PArray red) ∧
    np_percentile (Raise (IndexError "index -1 is out of bounds")) red 95 = Return v.
Proof.
  edestruct (plot_rgb_bands_scales_by_red
               (Raise (IndexError "index -1 is out of bounds"))
               (heap loaded_world) loaded_bands)
    as (red & v & Hred & Hv & _).
  - vm_compute. reflexivity.
  - apply list_elem_of_further, list_elem_of_further, list_elem_of_here.
  - exists red, v. split; [exact Hred | exact Hv].
Defined.

Lemma get_bands_keeps_what_exists_witness :
  stored (get_bands scene_urls "data" "tif" offline_machine).2 !! "data/red.tif"
  = Some scene_raster.
Proof.
  destruct (get_bands_keeps_what_exists scene_urls "data" "tif" offline_machine
              (get_bands scene_urls "data" "tif" offline_machine).1
              (get_bands scene_urls "data" "tif" offline_machine).2)
    as (Hkept & _); [vm_compute; reflexivity|].
  apply Hkept. reflexivity.
Defined.

Lemma get_bands_creates_only_band_files_witness :
  ∃ k v, (k, v) ∈ scene_urls ∧ "data/red.tif" = band_file "data" "tif" k ∧
         web online_machine !! v = Some scene_raster.
Proof.
  apply (get_bands_creates_only_band_files scene_urls "data" "tif" online_machine
           (get_bands scene_urls "data" "tif" online_machine).1
           (get_bands scene_urls "data" "tif" online_machine).2).
  - vm_compute. reflexivity.
  - vm_compute. reflexivity.
  - reflexivity.
Defined.

Lemma get_bands_requests_only_missing_witness :
  ∃ new,
    requested (get_bands scene_urls "data" "tif" online_machine).2
    = requested online_machine ++ new ∧
    ∀ u, u ∈ new →
         ∃ k, (k, u) ∈ scene_urls ∧
              stored online_machine !! band_file "data" "tif" k = None.
Proof.
  apply (get_bands_requests_only_missing scene_urls "data" "tif" online_machine
           (get_bands scene_urls "data" "tif" online_machine).1).
  vm_compute. reflexivity.
Defined.

Lemma get_bands_returns_first_bands_witness :
  ∃ bands m' band,
    get_bands scene_urls "data" "tif" online_machine = (Done bands, m') ∧
    bands !! "red" = Some (PArray band).
Proof.
  edestruct (get_bands_returns_first_bands scene_urls "data" "tif" online_machine)
    with (k := "red") (v := scene_url)
    as (profile & band & others & _ & Hband).
  - vm_compute. reflexivity.
  - apply list_elem_of_here.
  - do 2 eexists. exists band. split; [|exact Hband]. vm_compute. reflexivity.
Defined.

Lemma get_bands_from_cache_witness :
  ∃ bands m',
    get_bands scene_urls "data" "tif" offline_machine = (Done bands, m') ∧
    stored m' = stored offline_machine ∧
    requested m' = requested offline_machine.
Proof.
  destruct (get_bands_from_cache scene_urls "data" "tif" offline_machine)
    as (bands & m' & Hrun & Hstored & Hrequested & _).
  - vm_compute. reflexivity.
  - intros k v Hin. apply list_elem_of_singleton in Hin. injection Hin as -> ->.
    do 3 eexists. reflexivity.
  - exists bands, m'. split; [exact Hrun|]. split; [exact Hstored | exact Hrequested].
Defined.

Lemma get_bands_again_witness :
  ∃ bands2 m2,
    get_bands scene_urls "data" "tif"
              (get_bands scene_urls "data" "tif" online_machine).2
    = (Done bands2, m2) ∧
    requested m2 = requested (get_bands scene_urls "data" "tif" online_machine).2.
Proof.
  edestruct (get_bands_again scene_urls "data" "tif" online_machine)
    with (m1 := (get_bands scene_urls "data" "tif" online_machine).2)
    as (bands2 & m2 & Hrun & _ & Hrequested & _).
  - vm_compute. reflexivity.
  - exists bands2, m2. split; [exact Hrun | exact Hrequested].
Defined.

Lemma get_bands_keeps_unreadable_file_witness :
  ∃ m3,
    get_bands scene_urls "data" "tif" recovered_machine
    = (Failed (RasterioIOError "data/red.tif"), m3) ∧
    stored m3 = stored recovered_machine ∧
    requested m3 = requested recovered_machine.
Proof.
  apply (get_bands_keeps_unreadable_file scene_urls "data" "tif" failing_machine
           "data/red.tif" (get_bands scene_urls "data" "tif" failing_machine).2
           recovered_machine).
  - vm_compute. reflexivity.
  - reflexivity.
  - reflexivity.
Defined.

Lemma get_bands_profile_of_first_band_witness :
  ∃ bands m' l profile,
    get_bands scene_urls "data" "tif" online_machine = (Done bands, m') ∧
    bands !! "profile" = Some (PProfile l) ∧
    objects m' = <[l := profile]> (objects online_machine).
Proof.
  edestruct (get_bands_profile_of_first_band "red" scene_url [] "data" "tif"
               online_machine)
    as (l & profile & raster & Hprofile & _ & Hobjects & _).
  - vm_compute. reflexivity.
  - cbn. intros Hk. apply list_elem_of_singleton in Hk. discriminate.
  - do 2 eexists. exists l, profile. split; [|split; [exact Hprofile | exact Hobjects]].
    vm_compute. reflexivity.
Defined.

Lemma band_named_profile_hides_profile_witness :
  ∃ bands m',
    get_bands [("profile", scene_url)] "data" "tif" online_machine = (Done bands, m') ∧
    write_rgb_image bands "data" scene_world
    = (Raise (AttributeError "'numpy.ndarray' object has no attribute 'update'"),
       scene_world).
Proof.
  edestruct (band_named_profile_hides_profile [("profile", scene_url)] "data" "tif"
               online_machine)
    with (v := scene_url)
    as (_ & Hwrite).
  - vm_compute. reflexivity.
  - apply list_elem_of_here.
  - do 2 eexists. split; [|exact (Hwrite "data" scene_world)]. vm_compute. reflexivity.
Defined.

Lemma empty_band_fails_at_the_cut_points_witness :
  ∃ msg,
    create_rgb_stack
      (<["red" := {| dtype := uint16; shape := [0%nat; 2%nat]; data := [] |}]>
         scenario_bands)
      "rescaling" 2 (3 # 100)
    = Raise (TypeError msg).
Proof.
  apply (empty_band_fails_at_the_cut_points
           (<["red" := {| dtype := uint16; shape := [0%nat; 2%nat]; data := [] |}]>
              scenario_bands)
           {| dtype := uint16; shape := [0%nat; 2%nat]; data := [] |}
           scenario_band scenario_band 2 (3 # 100)).
  - reflexivity.
  - reflexivity.
  - reflexivity.
  - reflexivity.
  - split; discriminate.
  - intros qa Hqa. discriminate Hqa.
Defined.
